(** * unity-http-server: the GCS proxy handler and the local header table

  A shallow embedding of [src/gcs-handler.ts] and of the request path of
  [src/server.ts].  JavaScript strings are byte strings ([string]): a request
  URL as Node hands it over has one code unit per byte, and a command-line
  argument is read as its UTF-8 encoding, which is where the two non-ASCII
  line terminators of the regular expression dialect show up as three-byte
  sequences.  Header collections are finite maps from header name to value. *)

From Stdlib Require Import ZArith Ascii String Bool Lia.
From stdpp Require Import gmap strings.

Local Open Scope char_scope.
Local Open Scope stdpp_scope.

(** ** JavaScript string primitives *)

Module Js.

(** [x ? a : b] and [if (x)] on a string: the empty string is falsy. *)
Definition truthy (s : string) : bool := negb (String.eqb s "").

(** The same on [string | undefined]. *)
Definition truthyOpt (o : option string) : bool :=
  match o with
  | Some s => truthy s
  | None => false
  end.

(** [a || b] on strings. *)
Definition or (a b : string) : string := if truthy a then a else b.

(** [a === b] on [string | undefined]. *)
Definition strictEq (a b : option string) : bool :=
  match a, b with
  | Some x, Some y => String.eqb x y
  | None, None => true
  | _, _ => false
  end.

(** [s.startsWith(p)]. *)
Fixpoint startsWith (s p : string) {struct p} : bool :=
  match p with
  | "" => true
  | String a p' =>
      match s with
      | "" => false
      | String b s' => Ascii.eqb a b && startsWith s' p'
      end
  end.

(** [s.endsWith(p)]: [s] is [p], or what follows the first character of
    [s] ends with [p]. *)
Fixpoint endsWith (s p : string) : bool :=
  String.eqb s p ||
  match s with
  | "" => false
  | String _ s' => endsWith s' p
  end.

(** [s.includes(p)]: [p] starts at some position of [s]. *)
Fixpoint includes (s p : string) : bool :=
  startsWith s p ||
  match s with
  | "" => false
  | String _ s' => includes s' p
  end.

(** [s.substring(n)] for a natural [n]: an index past the end gives the
    empty string. *)
Fixpoint substring (n : nat) (s : string) : string :=
  match n, s with
  | O, _ => s
  | S n', String _ s' => substring n' s'
  | S _, "" => ""
  end.

(** [s.slice(a, b)] for [0 <= a], [0 <= b]. *)
Fixpoint take (n : nat) (s : string) : string :=
  match n, s with
  | S n', String c s' => String c (take n' s')
  | _, _ => ""
  end.

Definition slice (a b : nat) (s : string) : string :=
  take (b - a) (substring a s).

Definition lowerChar (c : ascii) : ascii :=
  let n := nat_of_ascii c in
  if (65 <=? n)%nat && (n <=? 90)%nat then ascii_of_nat (n + 32) else c.

(** [s.toLowerCase()] on the letters A to Z; no other character lower-cases
    to a letter of the extensions the server looks for. *)
Fixpoint toLowerCase (s : string) : string :=
  match s with
  | "" => ""
  | String c s' => String (lowerChar c) (toLowerCase s')
  end.

Definition upperChar (c : ascii) : ascii :=
  let n := nat_of_ascii c in
  if (97 <=? n)%nat && (n <=? 122)%nat then ascii_of_nat (n - 32) else c.

(** [s.toUpperCase()] on the letters a to z; no other character of a
    request line upper-cases to a single letter of the word the server's
    middleware compares with. *)
Fixpoint toUpperCase (s : string) : string :=
  match s with
  | "" => ""
  | String c s' => String (upperChar c) (toUpperCase s')
  end.

End Js.

(** ** Regular expressions

    A backtracking matcher for the fragment of the pattern language that
    [parseGcsPath] uses: single characters, sequence, the greedy [?] and [*],
    and numbered groups.  A match is tried at the start of the input only
    (the pattern is anchored there) and may stop before its end. *)

Module Regex.

Definition LF : ascii := "010".
Definition CR : ascii := "013".

(** A line terminator starts here: LF, CR, or the UTF-8 encoding of U+2028
    or U+2029 (E2 80 A8, E2 80 A9). *)
Definition lineTerminatorAt (s : string) : bool :=
  match s with
  | "" => false
  | String c r =>
      Ascii.eqb c LF || Ascii.eqb c CR ||
      (Ascii.eqb c "226" &&
       match r with
       | String c1 (String c2 _) =>
           Ascii.eqb c1 "128" && (Ascii.eqb c2 "168" || Ascii.eqb c2 "169")
       | _ => false
       end)
  end.

(** [Chr p] takes one character when [p] holds of the input from that
    character on. *)
Inductive re :=
| Eps
| Chr (p : string -> bool)
| Seq (a b : re)
| Opt (a : re)
| Star (a : re)
| Group (i : nat) (a : re).

Definition firstIs (c : ascii) (s : string) : bool :=
  match s with
  | String b _ => Ascii.eqb b c
  | "" => false
  end.

Definition lit (c : ascii) : re := Chr (firstIs c).
Definition notChar (c : ascii) : re := Chr (fun s => negb (firstIs c s)).
Definition dot : re := Chr (fun s => negb (lineTerminatorAt s)).
Definition plus (a : re) : re := Seq a (Star a).

Fixpoint str (p : string) : re :=
  match p with
  | "" => Eps
  | String c p' => Seq (lit c) (str p')
  end.

(** What a group has taken between the input [s] and the rest [s']. *)
Definition consumed (s s' : string) : string :=
  Js.take (String.length s - String.length s') s.

(** The matcher in continuation-passing style: [k] is what must still match
    after [r].  The first alternative that leads to an overall match wins,
    which is the order of greedy operators.  An iteration of [*] that takes
    nothing is refused, and [fuel] bounds the iterations. *)
Fixpoint run (fuel : nat) (r : re) (s : string) (caps : gmap nat string)
    (k : string -> gmap nat string -> option (gmap nat string))
    {struct fuel} : option (gmap nat string) :=
  (fix go (r : re) (s : string) (caps : gmap nat string)
       (k : string -> gmap nat string -> option (gmap nat string))
       {struct r} : option (gmap nat string) :=
     match r with
     | Eps => k s caps
     | Chr p =>
         match s with
         | "" => None
         | String _ s' => if p s then k s' caps else None
         end
     | Seq a b => go a s caps (fun s' caps' => go b s' caps' k)
     | Opt a =>
         match go a s caps k with
         | Some m => Some m
         | None => k s caps
         end
     | Star a =>
         match fuel with
         | O => None
         | S fuel' =>
             match go a s caps (fun s' caps' =>
                     if (String.length s' <? String.length s)%nat
                     then run fuel' (Star a) s' caps' k else None) with
             | Some m => Some m
             | None => k s caps
             end
         end
     | Group i a => go a s caps (fun s' caps' => k s' (<[i := consumed s s']> caps'))
     end) r s caps k.

(** [s.match(r)] for a pattern anchored at the start: the groups. *)
Definition exec (r : re) (s : string) : option (gmap nat string) :=
  run (S (String.length s)) r s ∅ (fun _ caps => Some caps).

(** The pattern of [parseGcsPath]: gs://, one or more characters other than
    a slash (group 1), an optional slash, any characters (group 2). *)
Definition gsPattern : re :=
  Seq (str "gs://")
    (Seq (Group 1 (plus (notChar "/")))
       (Seq (Opt (lit "/")) (Group 2 (Star dot)))).

End Regex.

(** ** [gcs-handler.ts]: configuration and locator parsing *)

Record GcsConfig := mkGcsConfig { bucketName : string; prefix : string }.

Definition parseGcsPath (gcsPath : string) : option GcsConfig :=
  match Regex.exec Regex.gsPattern gcsPath with
  | None => None
  | Some gcsMatch =>
      Some {| bucketName := default "" (gcsMatch !! 1%nat);
              prefix := Js.or (default "" (gcsMatch !! 2%nat)) "" |}
  end.

(** The first lines of [handleRequest]: the object name of a request. *)
Definition filePathOf (prefix url : string) : string :=
  let filePath := if String.eqb url "/" then "index.html" else Js.substring 1 url in
  if Js.truthy prefix
  then prefix +:+ (if Js.endsWith prefix "/" then "" else "/") +:+ filePath
  else filePath.

(** ** The runtime's [path.extname]

    Node's POSIX [extname], as its library has it: one pass over the
    characters from the last to the first, stopping at the slash that starts
    the last path component. *)

Module Path.

Record ExtState := mkExtState {
  startDot : Z;
  startPart : Z;
  end_ : Z;
  matchedSlash : bool;
  preDotState : Z
}.

Definition extInit : ExtState :=
  {| startDot := -1; startPart := 0; end_ := -1; matchedSlash := true; preDotState := 0 |}.

Definition setStartPart (v : Z) (st : ExtState) : ExtState :=
  mkExtState (startDot st) v (end_ st) (matchedSlash st) (preDotState st).
Definition setStartDot (v : Z) (st : ExtState) : ExtState :=
  mkExtState v (startPart st) (end_ st) (matchedSlash st) (preDotState st).
Definition setPreDotState (v : Z) (st : ExtState) : ExtState :=
  mkExtState (startDot st) (startPart st) (end_ st) (matchedSlash st) v.
Definition markEnd (v : Z) (st : ExtState) : ExtState :=
  mkExtState (startDot st) (startPart st) v false (preDotState st).

(** The part of the loop body after the slash test, for the character
    [code] at index [i]. *)
Definition extStep (code : ascii) (i : Z) (st : ExtState) : ExtState :=
  let st := if (end_ st =? -1)%Z then markEnd (i + 1) st else st in
  if Ascii.eqb code "."
  then if (startDot st =? -1)%Z then setStartDot i st
       else if negb (preDotState st =? 1)%Z then setPreDotState 1 st else st
  else if negb (startDot st =? -1)%Z then setPreDotState (-1) st else st.

(** The loop [for (i = path.length - 1; i >= 0; --i)] over the characters
    in that order: the head of [codes] is the character at index
    [length (tail)]. *)
Fixpoint extLoop (codes : list ascii) (st : ExtState) : ExtState :=
  match codes with
  | [] => st
  | code :: rest =>
      let i := Z.of_nat (length rest) in
      if Ascii.eqb code "/"
      then if negb (matchedSlash st)
           then setStartPart (i + 1) st
           else extLoop rest st
      else extLoop rest (extStep code i st)
  end.

Definition extname (path : string) : string :=
  let st := extLoop (rev (list_ascii_of_string path)) extInit in
  if (startDot st =? -1)%Z || (end_ st =? -1)%Z || (preDotState st =? 0)%Z ||
     ((preDotState st =? 1)%Z && (startDot st =? end_ st - 1)%Z &&
      (startDot st =? startPart st + 1)%Z)
  then ""
  else Js.slice (Z.to_nat (startDot st)) (Z.to_nat (end_ st)) path.

End Path.

(** ** Requests and responses *)

Record Request := mkRequest {
  method : string;
  url : string;
  headers : gmap string string   (* keyed by lower-case name *)
}.

Record Error := mkError { message : string }.

(** A readable stream of stored bytes: the chunks it yields and, when the
    read breaks off after them, the error it then emits. *)
Record Stream := mkStream { chunks : list string; failure : option Error }.

(** What has been written to the response. *)
Inductive Payload :=
| Pending                     (* nothing yet *)
| Sent (body : string)        (* [res.send(body)] *)
| Ended                       (* [res.end()] *)
| Piped (stream : Stream).    (* [stream.pipe(res)] *)

(** The response as the handlers see it: the status (200 until set), the
    headers set through [res.set], keyed by the name given there, and the
    payload.  It records what the code of the repository and the cors
    middleware hand to the response; what the framework adds on its own when
    a body is sent (Content-Length, and Content-Type and ETag where none is
    set yet) is not part of it, and the body a client receives is
    [bodyOnWire] below. *)
Record Response := mkResponse {
  statusCode : Z;
  resHeaders : gmap string string;
  payload : Payload
}.

Definition freshResponse : Response :=
  {| statusCode := 200; resHeaders := ∅; payload := Pending |}.

(** ** [server.ts]: the header table of local mode *)

Definition isGcsPath (buildPath : string) : bool := Js.startsWith buildPath "gs://".

Definition getContentTypeForCompressedFile (url : string) : string :=
  if Js.includes url ".wasm." then "application/wasm"
  else if Js.includes url ".js." then "application/javascript"
  else if Js.includes url ".data." then "application/octet-stream"
  else "application/octet-stream".

Definition setHeader (field value : string) (res : Response) : Response :=
  mkResponse (statusCode res) (<[field := value]> (resHeaders res)) (payload res).

(** The middleware that sets the headers of Unity files; [next()] follows
    in every case, so the result is the response handed on. *)
Definition headerMiddleware (isGcs : bool) (req : Request) (res : Response) : Response :=
  if isGcs then res
  else
    let ext := Js.toLowerCase (Path.extname (url req)) in
    if String.eqb ext ".wasm" then setHeader "Content-Type" "application/wasm" res
    else if String.eqb ext ".js" then setHeader "Content-Type" "application/javascript" res
    else if String.eqb ext ".gz" then
      setHeader "Content-Type" (getContentTypeForCompressedFile (url req))
        (setHeader "Content-Encoding" "gzip" res)
    else if String.eqb ext ".br" then
      setHeader "Content-Type" (getContentTypeForCompressedFile (url req))
        (setHeader "Content-Encoding" "br" res)
    else if String.eqb ext ".data" then setHeader "Content-Type" "application/octet-stream" res
    else if String.eqb ext ".unityweb" then setHeader "Content-Type" "application/octet-stream" res
    else res.

(** ** The storage client *)

Record File := mkFile { fileBucket : string; fileName : string }.

Record Metadata := mkMetadata {
  etag : option string;
  contentType : option string;
  contentEncoding : option string
}.

(** How a call completes: with a value, or by throwing (a rejected promise
    under [await]). *)
Inductive Completion (A : Type) :=
| Normal (a : A)
| Throw (e : Error).
Arguments Normal {A} a.
Arguments Throw {A} e.

(** The three operations the handler uses, each with any outcome per file. *)
Record Storage := mkStorage {
  file_exists : File -> Completion bool;
  file_getMetadata : File -> Completion Metadata;
  file_createReadStream : File -> bool -> Completion Stream  (* [decompress] *)
}.

Inductive StorageCall :=
| CallExists (f : File)
| CallGetMetadata (f : File)
| CallCreateReadStream (f : File) (decompress : bool).

(** ** The effects of a request: the response, the calls made on the
    storage client in order, and the console. *)

Record World := mkWorld {
  res : Response;
  calls : list StorageCall;
  console : list (string * Error)
}.

Definition freshWorld : World := {| res := freshResponse; calls := []; console := [] |}.

Definition M (A : Type) : Type := World -> Completion A * World.

#[global] Instance M_ret : MRet M := fun A a w => (Normal a, w).
#[global] Instance M_bind : MBind M := fun A B f m w =>
  match m w with
  | (Normal a, w') => f a w'
  | (Throw e, w') => (Throw e, w')
  end.

(** [try { body } catch (error) { handler }]. *)
Definition tryCatch {A} (body : M A) (handler : Error -> M A) : M A := fun w =>
  match body w with
  | (Normal a, w') => (Normal a, w')
  | (Throw e, w') => handler e w'
  end.

Definition onResponse (f : Response -> Response) : M unit := fun w =>
  (Normal tt, mkWorld (f (res w)) (calls w) (console w)).

Definition res_status (code : Z) : M unit :=
  onResponse (fun r => mkResponse code (resHeaders r) (payload r)).
Definition res_set (field value : string) : M unit :=
  onResponse (setHeader field value).
Definition res_send (body : string) : M unit :=
  onResponse (fun r => mkResponse (statusCode r) (resHeaders r) (Sent body)).
Definition res_end : M unit :=
  onResponse (fun r => mkResponse (statusCode r) (resHeaders r) Ended).
Definition pipe (stream : Stream) : M unit :=
  onResponse (fun r => mkResponse (statusCode r) (resHeaders r) (Piped stream)).

Definition console_error (label : string) (e : Error) : M unit := fun w =>
  (Normal tt, mkWorld (res w) (calls w) (console w ++ [(label, e)])).

(** A call on the storage client: logged, then completed as the client says. *)
Definition storageCall {A} (c : StorageCall) (outcome : Completion A) : M A := fun w =>
  (outcome, mkWorld (res w) (calls w ++ [c]) (console w)).

Definition whenSome (o : option string) (f : string -> M unit) : M unit :=
  match o with
  | Some v => if Js.truthy v then f v else mret tt
  | None => mret tt
  end.

(** ** [gcs-handler.ts]: the handler *)

Record GcsHandler := mkGcsHandler {
  storage : Storage;
  handlerBucket : string;
  handlerPrefix : string
}.

(** [new GcsHandler(config)], with the storage client it creates. *)
Definition newGcsHandler (client : Storage) (config : GcsConfig) : GcsHandler :=
  {| storage := client; handlerBucket := bucketName config; handlerPrefix := prefix config |}.

Definition nl : string := String Regex.LF "".

(** The body of the 404 answer, a template literal over three lines. *)
Definition notFoundBody (filePath : string) : string :=
  nl +:+ "          <h1>File Not Found</h1>" +:+
  nl +:+ "          <p>File not found in GCS: " +:+ filePath +:+ "</p>" +:+
  nl +:+ "        ".

Definition handleRequest (this : GcsHandler) (req : Request) : M unit :=
  tryCatch
    (let filePath := filePathOf (handlerPrefix this) (url req) in
     let file := mkFile (handlerBucket this) filePath in
     exists_ ← storageCall (CallExists file) (file_exists (storage this) file);
     if negb exists_ then
       res_status 404;; res_send (notFoundBody filePath)
     else
       metadata ← storageCall (CallGetMetadata file) (file_getMetadata (storage this) file);
       let clientETag := headers req !! "if-none-match" in
       if Js.truthyOpt clientETag && Js.truthyOpt (etag metadata) &&
          Js.strictEq clientETag (etag metadata)
       then res_status 304;; res_end
       else
         whenSome (etag metadata) (res_set "ETag");;
         whenSome (contentType metadata) (res_set "Content-Type");;
         whenSome (contentEncoding metadata) (res_set "Content-Encoding");;
         res_set "Cache-Control" "no-cache";;
         stream ← storageCall (CallCreateReadStream file false)
                    (file_createReadStream (storage this) file false);
         pipe stream)
    (fun error =>
       console_error "GCS Error:" error;;
       res_status 500;; res_send "Internal Server Error").

(** ** [server.ts]: the cors middleware

    The cors library under the options of lines 90-94 (any origin, five
    methods, two allowed headers) and its defaults otherwise.  A request
    whose method upper-cases to OPTIONS is a preflight: the library sets the
    three Access-Control headers and Content-Length 0, ends the response with
    status 204 and does not call [next].  Any other request gets
    Access-Control-Allow-Origin and is passed on.  The result is the
    response and whether [next] was called. *)
Definition corsMiddleware (req : Request) (res : Response) : Response * bool :=
  if String.eqb (Js.toUpperCase (method req)) "OPTIONS" then
    (mkResponse 204
       (<["Content-Length" := "0"]>
          (<["Access-Control-Allow-Headers" := "Content-Type,Authorization"]>
             (<["Access-Control-Allow-Methods" := "GET,POST,PUT,DELETE,OPTIONS"]>
                (<["Access-Control-Allow-Origin" := "*"]> (resHeaders res)))))
       Ended,
     false)
  else (setHeader "Access-Control-Allow-Origin" "*" res, true).

(** ** [server.ts]: the request path in remote mode

    The middlewares in the order they are mounted: cors, the header table
    (which passes a remote request on untouched), then the proxy, mounted at
    the root for all methods.  The logging middleware between them only
    registers a listener that writes to the standard output. *)
Definition serveRemote (gcsHandler : GcsHandler) (req : Request) : M unit := fun w =>
  let '(res1, next) := corsMiddleware req (res w) in
  if next then
    handleRequest gcsHandler req
      (mkWorld (headerMiddleware true req res1) (calls w) (console w))
  else (Normal tt, mkWorld res1 (calls w) (console w)).

(** ** What reaches the client

    The body the runtime puts on the wire, in chunks: none for a HEAD
    request and none under an informational status, 204 or 304; otherwise
    the string sent, or the chunks of the piped stream. *)
Definition bodyOnWire (method : string) (res : Response) : list string :=
  if String.eqb method "HEAD" ||
     ((100 <=? statusCode res)%Z && (statusCode res <=? 199)%Z) ||
     (statusCode res =? 204)%Z || (statusCode res =? 304)%Z
  then []
  else
    match payload res with
    | Sent body => [body]
    | Piped stream => chunks stream
    | Pending | Ended => []
    end.

(** The error that nothing handles: a piped stream that breaks off emits
    [error], and [handleRequest] registers no listener for it. *)
Definition uncaught (w : World) : option Error :=
  match payload (res w) with
  | Piped stream => failure stream
  | Pending | Sent _ | Ended => None
  end.


(** ** The match of [gsPattern] in closed form

    Each piece of the pattern as a function of the input; the lemmas below
    show that the matcher computes exactly these. *)

Module Closed.

(** A literal at the start: what follows it, when the input starts so. *)
Fixpoint literal (p s : string) : option string :=
  match p with
  | "" => Some s
  | String a p' =>
      match s with
      | "" => None
      | String b s' => if Ascii.eqb b a then literal p' s' else None
      end
  end.

(** The longest run of characters other than a slash, and the rest. *)
Fixpoint notSlashRun (s : string) : string * string :=
  match s with
  | "" => ("", "")
  | String c s' =>
      if Ascii.eqb c "/" then ("", s)
      else (String c (fst (notSlashRun s')), snd (notSlashRun s'))
  end.

(** An optional slash, taken when it is there. *)
Definition optSlash (s : string) : string :=
  match s with
  | String c s' => if Ascii.eqb c "/" then s' else s
  | "" => s
  end.

(** The longest run of characters other than a line terminator. *)
Fixpoint dotStar (s : string) : string :=
  match s with
  | "" => ""
  | String c s' => if Regex.lineTerminatorAt s then "" else String c (dotStar s')
  end.

Fixpoint dotRest (s : string) : string :=
  match s with
  | "" => ""
  | String c s' => if Regex.lineTerminatorAt s then s else dotRest s'
  end.

Fixpoint hasLineTerminator (s : string) : bool :=
  Regex.lineTerminatorAt s ||
  match s with
  | "" => false
  | String _ s' => hasLineTerminator s'
  end.

Definition gsParse (s : string) : option GcsConfig :=
  match literal "gs://" s with
  | None => None
  | Some s1 =>
      if Js.truthy (fst (notSlashRun s1))
      then Some {| bucketName := fst (notSlashRun s1);
                   prefix := dotStar (optSlash (snd (notSlashRun s1))) |}
      else None
  end.

End Closed.

(** ** The handler's outcomes, case by case

    Names for the pieces of the final state of a request, used to state what
    [handleRequest] leaves behind in each of its branches. *)

(** The test of the conditional request. *)
Definition notModified (req : Request) (metadata : Metadata) : bool :=
  Js.truthyOpt (headers req !! "if-none-match") && Js.truthyOpt (etag metadata) &&
  Js.strictEq (headers req !! "if-none-match") (etag metadata).

Definition setIfTruthy (field : string) (o : option string)
    (h : gmap string string) : gmap string string :=
  match o with
  | Some v => if Js.truthy v then <[field := v]> h else h
  | None => h
  end.

(** The headers after the four [res.set] steps of a delivery. *)
Definition deliveryHeaders (metadata : Metadata) (h : gmap string string) : gmap string string :=
  <["Cache-Control" := "no-cache"]>
    (setIfTruthy "Content-Encoding" (contentEncoding metadata)
       (setIfTruthy "Content-Type" (contentType metadata)
          (setIfTruthy "ETag" (etag metadata) h))).

Definition fileOf (this : GcsHandler) (req : Request) : File :=
  mkFile (handlerBucket this) (filePathOf (handlerPrefix this) (url req)).

(** The world after the [catch] block. *)
Definition failed (e : Error) (h : gmap string string) (cs : list StorageCall)
    (w : World) : World :=
  mkWorld (mkResponse 500 h (Sent "Internal Server Error")) cs
    (console w ++ [("GCS Error:", e)]).

(** The world a request leaves behind. *)
Definition after (this : GcsHandler) (req : Request) (w : World) : World :=
  snd (handleRequest this req w).

(** ** A sample deployment

    One bucket holding [builds/index.html], and a client whose every call
    fails; the concrete instances the general statements are run on. *)

Module Sample.

Definition indexFile : File := mkFile "bucket" "builds/index.html".

Definition metadata : Metadata :=
  {| etag := Some "abc"; contentType := Some "text/html"; contentEncoding := Some "gzip" |}.

Definition content : Stream := mkStream ["<html>"; "</html>"] None.

Definition store : Storage :=
  {| file_exists := fun f => Normal (String.eqb (fileName f) "builds/index.html");
     file_getMetadata := fun _ => Normal metadata;
     file_createReadStream := fun _ _ => Normal content |}.

Definition unreachable : Storage :=
  {| file_exists := fun _ => Throw (mkError "ECONNREFUSED");
     file_getMetadata := fun _ => Throw (mkError "ECONNREFUSED");
     file_createReadStream := fun _ _ => Throw (mkError "ECONNREFUSED") |}.

Definition handler : GcsHandler := newGcsHandler store (mkGcsConfig "bucket" "builds").
Definition brokenHandler : GcsHandler := newGcsHandler unreachable (mkGcsConfig "bucket" "builds").

Definition get (path : string) : Request := mkRequest "GET" path ∅.
Definition getIfNoneMatch (path validator : string) : Request :=
  mkRequest "GET" path {[ "if-none-match" := validator ]}.

End Sample.

(** ** Extensions

    A plain extension name has no dot and no slash.  Once the loop of
    [extname] has found the dot and the end of an extension and has seen a
    character before the dot, nothing it reads further to the left changes
    either index. *)

Fixpoint plainName (e : list ascii) : bool :=
  match e with
  | [] => true
  | c :: e' => negb (Ascii.eqb c ".") && negb (Ascii.eqb c "/") && plainName e'
  end.

Definition extFound (dotAt endAt : Z) (st : Path.ExtState) : Prop :=
  Path.startDot st = dotAt /\ Path.end_ st = endAt /\
  Path.preDotState st <> 0%Z /\ Path.matchedSlash st = false.

(** ** [server.ts]: the command line and the choice of mode *)

(** A number as [parseInt] can give it. *)
Inductive JsNumber :=
| NaN
| Finite (z : Z)
| PosInfinity
| NegInfinity.

(** [if (n)] on a number: NaN and zero are falsy. *)
Definition truthyNumber (n : JsNumber) : bool :=
  match n with
  | NaN => false
  | Finite z => negb (z =? 0)%Z
  | PosInfinity | NegInfinity => true
  end.

(** [a || b] on numbers. *)
Definition numberOr (a b : JsNumber) : JsNumber := if truthyNumber a then a else b.

Record ServerConfig := mkServerConfig {
  port : JsNumber;
  host : string;
  buildPath : string
}.

Definition DEFAULT_CONFIG : ServerConfig :=
  {| port := Finite 8080; host := "localhost"; buildPath := "./" |}.

Definition withPort (v : JsNumber) (config : ServerConfig) : ServerConfig :=
  mkServerConfig v (host config) (buildPath config).
Definition withHost (v : string) (config : ServerConfig) : ServerConfig :=
  mkServerConfig (port config) v (buildPath config).
Definition withBuildPath (v : string) (config : ServerConfig) : ServerConfig :=
  mkServerConfig (port config) (host config) v.

(** A computation that may end the process with [process.exit(code)]. *)
Inductive Exit (A : Type) :=
| Returned (a : A)
| Exited (code : Z).
Arguments Returned {A} a.
Arguments Exited {A} code.

Section CommandLine.

(** The runtime's [parseInt] on a string, with the default radix. *)
Variable parseInt : string -> JsNumber.

(** [parseInt(args[++i])]: past the end the argument is [undefined], and
    [parseInt(undefined)] is NaN. *)
Definition parseIntArg (a : option string) : JsNumber :=
  match a with
  | Some s => parseInt s
  | None => NaN
  end.

(** [args[++i] || DEFAULT_CONFIG.host]. *)
Definition hostArg (a : option string) : string :=
  match a with
  | Some s => Js.or s (host DEFAULT_CONFIG)
  | None => host DEFAULT_CONFIG
  end.

(** The [switch] on [args[i]]: the index it leaves in [i] and the
    configuration, or the exit of [--help] (after the usage text is
    printed). *)
Definition argStep (args : list string) (i : nat) (arg : string)
    (config : ServerConfig) : Exit (nat * ServerConfig) :=
  if String.eqb arg "-p" || String.eqb arg "--port" then
    Returned (S i, withPort (numberOr (parseIntArg (args !! S i)) (port DEFAULT_CONFIG)) config)
  else if String.eqb arg "-a" then
    Returned (S i, withHost (hostArg (args !! S i)) config)
  else if String.eqb arg "--help" then
    Exited 0
  else
    Returned (i, if negb (Js.startsWith arg "-") then withBuildPath arg config else config).

(** [for (let i = ...; i < args.length; i++)], from the index [i] on; every
    iteration moves the index forward, so [length args] rounds of [fuel]
    are enough from index 0. *)
Fixpoint argLoop (fuel : nat) (args : list string) (i : nat)
    (config : ServerConfig) : Exit ServerConfig :=
  match fuel with
  | O => Returned config
  | S fuel' =>
      match args !! i with
      | None => Returned config
      | Some arg =>
          match argStep args i arg config with
          | Exited code => Exited code
          | Returned (i', config') => argLoop fuel' args (S i') config'
          end
      end
  end.

(** [parseArgs()], given [process.argv]. *)
Definition parseArgs (argv : list string) : Exit ServerConfig :=
  let args := drop 2 argv in
  argLoop (length args) args 0 DEFAULT_CONFIG.

End CommandLine.

(** How requests are served once the server is up. *)
Inductive Mode :=
| RemoteMode (gcsHandler : GcsHandler)
| LocalMode.

(** The top level of [server.ts] after [parseArgs]: the handler for a GCS
    path (or exit 1 when it does not parse), the check of the build
    directory for a local path (or exit 1), and the branch that mounts the
    proxy or the static files.  [existsSync] is the file system,
    [client] the storage client that [new GcsHandler] creates. *)
Definition selectMode (existsSync : string -> bool) (client : Storage)
    (config : ServerConfig) : Exit Mode :=
  let isGcs := isGcsPath (buildPath config) in
  let created :=
    if isGcs then
      match parseGcsPath (buildPath config) with
      | Some gcsConfig => Returned (Some (newGcsHandler client gcsConfig))
      | None => Exited 1
      end
    else Returned None in
  match created with
  | Exited code => Exited code
  | Returned gcsHandler =>
      if negb isGcs && negb (existsSync (buildPath config)) then Exited 1
      else
        match isGcs, gcsHandler with
        | true, Some h => Returned (RemoteMode h)
        | _, _ => Returned LocalMode
        end
  end.

(** From the command line to the mode. *)
Definition startup (parseInt : string -> JsNumber) (existsSync : string -> bool)
    (client : Storage) (argv : list string) : Exit (ServerConfig * Mode) :=
  match parseArgs parseInt argv with
  | Exited code => Exited code
  | Returned config =>
      match selectMode existsSync client config with
      | Exited code => Exited code
      | Returned mode => Returned (config, mode)
      end
  end.

(** An argument that the loop takes as a build path. *)
Definition positional (arg : string) : bool := negb (Js.startsWith arg "-").

(** A client whose objects exist but cannot be read. *)
Definition unreadableStore : Storage :=
  {| file_exists := fun _ => Normal true;
     file_getMetadata := fun _ => Normal Sample.metadata;
     file_createReadStream := fun _ _ => Throw (mkError "EPIPE") |}.

(** A client whose streams break off after the first chunk. *)
Definition interruptedStore : Storage :=
  {| file_exists := fun _ => Normal true;
     file_getMetadata := fun _ => Normal Sample.metadata;
     file_createReadStream := fun _ _ =>
       Normal (mkStream ["<html>"] (Some (mkError "ECONNRESET"))) |}.

(** A decimal [parseInt] for sample command lines: digits only. *)
Fixpoint digitsValue (acc : Z) (s : string) : option Z :=
  match s with
  | "" => Some acc
  | String c s' =>
      match Ascii.is_nat c with
      | Some d => digitsValue (10 * acc + Z.of_nat d) s'
      | None => None
      end
  end.

Definition sampleParseInt (s : string) : JsNumber :=
  match s with
  | "" => NaN
  | _ => match digitsValue 0 s with Some z => Finite z | None => NaN end
  end.

(** * Lemmas *)

#[local] Arguments String.append !s1 s2 /.

Section StringFacts.

Lemma sapp_nil_r (s : string) : s +:+ "" = s.
Proof. induction s as [|c s IH]; simpl; [reflexivity | now rewrite IH]. Qed.

Lemma sapp_assoc (a b c : string) : (a +:+ b) +:+ c = a +:+ b +:+ c.
Proof. induction a as [|x a IH]; simpl; [reflexivity | now rewrite IH]. Qed.

Lemma slength_app (a b : string) :
  String.length (a +:+ b) = (String.length a + String.length b)%nat.
Proof. induction a as [|x a IH]; simpl; [reflexivity | now rewrite IH]. Qed.

Lemma truthy_true (s : string) : Js.truthy s = true <-> s <> "".
Proof.
  unfold Js.truthy. destruct (String.eqb_spec s ""); simpl; split; congruence.
Qed.

Lemma truthy_false (s : string) : Js.truthy s = false <-> s = "".
Proof.
  unfold Js.truthy. destruct (String.eqb_spec s ""); simpl; split; congruence.
Qed.

Lemma or_empty (s : string) : Js.or s "" = s.
Proof.
  unfold Js.or. destruct (Js.truthy s) eqn:E; [reflexivity|].
  symmetry. now apply truthy_false.
Qed.

Lemma take_app (a b : string) : Js.take (String.length a) (a +:+ b) = a.
Proof. induction a as [|x a IH]; simpl; [now destruct b | now rewrite IH]. Qed.

Lemma substring_app (a b : string) : Js.substring (String.length a) (a +:+ b) = b.
Proof. induction a as [|x a IH]; simpl; [reflexivity | exact IH]. Qed.

Lemma consumed_app (a b : string) : Regex.consumed (a +:+ b) b = a.
Proof.
  unfold Regex.consumed. rewrite slength_app.
  replace (String.length a + String.length b - String.length b)%nat
    with (String.length a) by lia.
  apply take_app.
Qed.

Lemma startsWith_app (p s : string) : Js.startsWith (p +:+ s) p = true.
Proof.
  induction p as [|c p IH]; simpl; [reflexivity|].
  now rewrite Ascii.eqb_refl.
Qed.

Lemma endsWith_unfold (s p : string) :
  Js.endsWith s p =
  String.eqb s p || match s with "" => false | String _ s' => Js.endsWith s' p end.
Proof. destruct s; reflexivity. Qed.

Lemma endsWith_app (a p : string) : Js.endsWith (a +:+ p) p = true.
Proof.
  induction a as [|c a IH].
  - simpl. rewrite endsWith_unfold, String.eqb_refl. reflexivity.
  - rewrite endsWith_unfold. simpl String.append. cbv iota. rewrite IH. apply orb_true_r.
Qed.

Lemma includes_unfold (s p : string) :
  Js.includes s p =
  Js.startsWith s p || match s with "" => false | String _ s' => Js.includes s' p end.
Proof. destruct s; reflexivity. Qed.

Lemma includes_app (a p b : string) : Js.includes (a +:+ p +:+ b) p = true.
Proof.
  induction a as [|c a IH].
  - simpl String.append. rewrite includes_unfold, startsWith_app. reflexivity.
  - rewrite includes_unfold. simpl String.append. cbv iota. rewrite IH. apply orb_true_r.
Qed.

End StringFacts.

(** The matcher, one equation per construct. *)
Section RunEquations.

Import Regex.

Context (fuel : nat) (s : string) (caps : gmap nat string)
        (k : string -> gmap nat string -> option (gmap nat string)).

Lemma run_Eps : run fuel Eps s caps k = k s caps.
Proof. destruct fuel; reflexivity. Qed.

Lemma run_Chr p :
  run fuel (Chr p) s caps k =
  match s with
  | "" => None
  | String _ s' => if p s then k s' caps else None
  end.
Proof. destruct fuel; reflexivity. Qed.

Lemma run_Seq a b :
  run fuel (Seq a b) s caps k = run fuel a s caps (fun s' caps' => run fuel b s' caps' k).
Proof. destruct fuel; reflexivity. Qed.

Lemma run_Opt a :
  run fuel (Opt a) s caps k =
  match run fuel a s caps k with
  | Some m => Some m
  | None => k s caps
  end.
Proof. destruct fuel; reflexivity. Qed.

Lemma run_Group i a :
  run fuel (Group i a) s caps k =
  run fuel a s caps (fun s' caps' => k s' (<[i := consumed s s']> caps')).
Proof. destruct fuel; reflexivity. Qed.

Lemma run_Star a :
  run (S fuel) (Star a) s caps k =
  match run (S fuel) a s caps (fun s' caps' =>
          if (String.length s' <? String.length s)%nat
          then run fuel (Star a) s' caps' k else None) with
  | Some m => Some m
  | None => k s caps
  end.
Proof. reflexivity. Qed.

End RunEquations.

Section ClosedForm.

Import Regex Closed.

Lemma notSlashRun_app (s : string) : fst (notSlashRun s) +:+ snd (notSlashRun s) = s.
Proof.
  induction s as [|c s IH]; simpl; [reflexivity|].
  destruct (Ascii.eqb c "/"); simpl; [reflexivity | now rewrite IH].
Qed.

Lemma notSlashRun_length (s : string) :
  (String.length (snd (notSlashRun s)) <= String.length s)%nat.
Proof.
  induction s as [|c s IH]; simpl; [lia|].
  destruct (Ascii.eqb c "/"); simpl; lia.
Qed.

Lemma dotStar_app (s : string) : dotStar s +:+ dotRest s = s.
Proof.
  induction s as [|c s IH]; [reflexivity|].
  cbn [dotStar dotRest]. destruct (lineTerminatorAt (String c s)); simpl; [reflexivity | now rewrite IH].
Qed.

Lemma dotRest_length (s : string) : (String.length (dotRest s) <= String.length s)%nat.
Proof.
  induction s as [|c s IH]; [simpl; lia|].
  cbn [dotRest]. destruct (lineTerminatorAt (String c s)); simpl; lia.
Qed.

Lemma run_str p : forall fuel s caps k,
  run fuel (str p) s caps k =
  match literal p s with
  | Some s' => k s' caps
  | None => None
  end.
Proof.
  induction p as [|a p IH]; intros fuel s caps k; simpl str.
  - now rewrite run_Eps.
  - rewrite run_Seq. unfold lit. rewrite run_Chr. destruct s as [|b s]; [reflexivity|].
    simpl. destruct (Ascii.eqb b a); [apply IH | reflexivity].
Qed.

Lemma ltb_tail (c : ascii) (s : string) :
  (String.length s <? String.length (String c s))%nat = true.
Proof. apply Nat.ltb_lt. simpl. lia. Qed.

(** A greedy [*] over single characters before a continuation that cannot
    fail takes the longest run. *)
Lemma run_star_notSlash : forall s fuel caps k,
  (String.length s < fuel)%nat ->
  (forall s' caps', (String.length s' <= String.length s)%nat -> k s' caps' <> None) ->
  run fuel (Star (notChar "/")) s caps k = k (snd (notSlashRun s)) caps.
Proof.
  induction s as [|c s IH]; intros fuel caps k Hfuel Hk;
    (destruct fuel as [|fuel]; [simpl in Hfuel; lia|]);
    rewrite run_Star; unfold notChar at 1; rewrite run_Chr.
  - reflexivity.
  - cbn [notSlashRun firstIs]. destruct (Ascii.eqb c "/"); cbn [negb snd]; [reflexivity|].
    rewrite ltb_tail.
    rewrite IH; [| simpl in Hfuel; lia | intros; apply Hk; simpl; lia].
    destruct (k (snd (notSlashRun s)) caps) eqn:E; [reflexivity|].
    exfalso. revert E. apply Hk. pose proof (notSlashRun_length s). simpl. lia.
Qed.

Lemma run_star_dot : forall s fuel caps k,
  (String.length s < fuel)%nat ->
  (forall s' caps', (String.length s' <= String.length s)%nat -> k s' caps' <> None) ->
  run fuel (Star dot) s caps k = k (dotRest s) caps.
Proof.
  induction s as [|c s IH]; intros fuel caps k Hfuel Hk;
    (destruct fuel as [|fuel]; [simpl in Hfuel; lia|]);
    rewrite run_Star; unfold dot at 1; rewrite run_Chr.
  - reflexivity.
  - cbn [dotRest]. destruct (lineTerminatorAt (String c s)); cbn [negb]; [reflexivity|].
    rewrite ltb_tail.
    rewrite IH; [| simpl in Hfuel; lia | intros; apply Hk; simpl; lia].
    destruct (k (dotRest s) caps) eqn:E; [reflexivity|].
    exfalso. revert E. apply Hk. pose proof (dotRest_length s). simpl. lia.
Qed.

Lemma literal_length p : forall s s',
  literal p s = Some s' -> (String.length s' <= String.length s)%nat.
Proof.
  induction p as [|a p IH]; intros s s' H; simpl in H.
  - inversion H. lia.
  - destruct s as [|b s]; [discriminate|].
    destruct (Ascii.eqb b a); [|discriminate].
    apply IH in H. simpl. lia.
Qed.

Lemma literal_startsWith p : forall s,
  literal p s = None <-> Js.startsWith s p = false.
Proof.
  induction p as [|a p IH]; intros s; simpl.
  - split; discriminate.
  - destruct s as [|b s]; [tauto|].
    rewrite (Ascii.eqb_sym a b). destruct (Ascii.eqb b a); simpl; [apply IH | tauto].
Qed.

Lemma literal_app p s : literal p (p +:+ s) = Some s.
Proof.
  induction p as [|a p IH]; simpl; [reflexivity|].
  now rewrite Ascii.eqb_refl.
Qed.

Lemma group2_closed fuel s caps :
  (String.length s < fuel)%nat ->
  run fuel (Group 2 (Star dot)) s caps (fun _ c => Some c) =
  Some (<[2%nat := dotStar s]> caps).
Proof.
  intros Hfuel. rewrite run_Group, run_star_dot; [| lia | discriminate].
  do 2 f_equal. rewrite <- (dotStar_app s) at 1. apply consumed_app.
Qed.

Lemma tail_closed fuel s caps :
  (String.length s < fuel)%nat ->
  run fuel (Seq (Opt (lit "/")) (Group 2 (Star dot))) s caps (fun _ c => Some c) =
  Some (<[2%nat := dotStar (optSlash s)]> caps).
Proof.
  intros Hfuel. rewrite run_Seq, run_Opt. unfold lit. rewrite run_Chr.
  destruct s as [|c r]; cbn [optSlash firstIs].
  - now rewrite group2_closed.
  - destruct (Ascii.eqb c "/").
    + rewrite group2_closed; [reflexivity | simpl in Hfuel; lia].
    + now rewrite group2_closed.
Qed.

(** What the pattern captures, for every input. *)
Lemma exec_gsPattern (s : string) :
  exec gsPattern s =
  match literal "gs://" s with
  | None => None
  | Some s1 =>
      if Js.truthy (fst (notSlashRun s1))
      then Some (<[2%nat := dotStar (optSlash (snd (notSlashRun s1)))]>
                   (<[1%nat := fst (notSlashRun s1)]> ∅))
      else None
  end.
Proof.
  unfold exec, gsPattern. rewrite run_Seq, run_str.
  destruct (literal "gs://" s) as [s1|] eqn:Hlit; [|reflexivity].
  apply literal_length in Hlit.
  rewrite run_Seq, run_Group. unfold plus. rewrite run_Seq.
  unfold notChar at 1. rewrite run_Chr.
  destruct s1 as [|c s1]; [reflexivity|].
  cbn [firstIs notSlashRun]. destruct (Ascii.eqb c "/"); cbn [negb fst snd]; [reflexivity|].
  pose proof (notSlashRun_length s1) as Hrest. simpl in Hlit.
  rewrite run_star_notSlash.
  - rewrite tail_closed by lia. cbn [Js.truthy String.eqb negb].
    do 3 f_equal. rewrite <- (notSlashRun_app s1) at 1.
    change (String c (fst (notSlashRun s1) +:+ snd (notSlashRun s1)))
      with (String c (fst (notSlashRun s1)) +:+ snd (notSlashRun s1)).
    apply consumed_app.
  - lia.
  - intros s' caps' Hlen. rewrite tail_closed by lia. discriminate.
Qed.

Lemma parseGcsPath_closed (s : string) : parseGcsPath s = gsParse s.
Proof.
  unfold parseGcsPath, gsParse. rewrite exec_gsPattern.
  destruct (literal "gs://" s) as [s1|]; [|reflexivity].
  destruct (Js.truthy (fst (notSlashRun s1))); [|reflexivity].
  rewrite lookup_insert_ne by discriminate.
  rewrite !lookup_insert_eq. cbn [default]. now rewrite or_empty.
Qed.

End ClosedForm.

Section LocatorFacts.

Import Regex Closed.

Lemma includes_slash_cons (c : ascii) (b : string) :
  Js.includes (String c b) "/" = false ->
  Ascii.eqb c "/" = false /\ Js.includes b "/" = false.
Proof.
  rewrite includes_unfold. cbn [Js.startsWith].
  rewrite andb_true_r, (Ascii.eqb_sym "/" c). apply orb_false_elim.
Qed.

Lemma notSlashRun_bucket (b : string) : forall r,
  Js.includes b "/" = false ->
  notSlashRun (b +:+ String "/" r) = (b, String "/" r).
Proof.
  induction b as [|c b IH]; intros r H; [reflexivity|].
  apply includes_slash_cons in H as [Hc Hb].
  simpl. rewrite Hc, (IH r Hb). reflexivity.
Qed.

Lemma notSlashRun_bucket_only (b : string) :
  Js.includes b "/" = false -> notSlashRun b = (b, "").
Proof.
  induction b as [|c b IH]; intros H; [reflexivity|].
  apply includes_slash_cons in H as [Hc Hb].
  simpl. rewrite Hc, (IH Hb). reflexivity.
Qed.

Lemma dotStar_id (p : string) : hasLineTerminator p = false -> dotStar p = p.
Proof.
  induction p as [|c p IH]; [reflexivity|].
  cbn [hasLineTerminator dotStar]. intros H. apply orb_false_elim in H as [H1 H2].
  rewrite H1, (IH H2). reflexivity.
Qed.

Lemma lineTerminatorAt_app_slash (c : ascii) (p : string) :
  lineTerminatorAt (String c (p +:+ "/")) = lineTerminatorAt (String c p).
Proof.
  destruct p as [|c1 [|c2 p]]; simpl; rewrite ?andb_false_r; reflexivity.
Qed.

Lemma dotStar_app_slash (p : string) :
  dotStar (p +:+ "/") = if hasLineTerminator p then dotStar p else p +:+ "/".
Proof.
  induction p as [|c p IH]; [reflexivity|].
  simpl String.append. cbn [dotStar hasLineTerminator].
  rewrite lineTerminatorAt_app_slash.
  destruct (lineTerminatorAt (String c p)); [reflexivity|].
  rewrite IH. cbn [orb]. destruct (hasLineTerminator p); reflexivity.
Qed.

(** The locator gs://b/rest, for a bucket name [b]: the prefix is [rest] up
    to its first line terminator. *)
Lemma gsParse_bucket_slash (b rest : string) :
  b <> "" -> Js.includes b "/" = false ->
  gsParse ("gs://" +:+ b +:+ "/" +:+ rest) = Some (mkGcsConfig b (dotStar rest)).
Proof.
  intros Hb Hs. unfold gsParse. rewrite literal_app.
  change ("/" +:+ rest) with (String "/" rest).
  rewrite (notSlashRun_bucket b rest Hs). cbn [fst snd optSlash].
  apply truthy_true in Hb. rewrite Hb. reflexivity.
Qed.

Lemma gsParse_bucket (b : string) :
  b <> "" -> Js.includes b "/" = false ->
  gsParse ("gs://" +:+ b) = Some (mkGcsConfig b "").
Proof.
  intros Hb Hs. unfold gsParse. rewrite literal_app.
  rewrite (notSlashRun_bucket_only b Hs). cbn [fst snd optSlash].
  apply truthy_true in Hb. rewrite Hb. reflexivity.
Qed.


Lemma filePathOf_slash (p url : string) :
  filePathOf (p +:+ "/") url =
  p +:+ "/" +:+ (if String.eqb url "/" then "index.html" else Js.substring 1 url).
Proof.
  unfold filePathOf. rewrite endsWith_app.
  assert (Js.truthy (p +:+ "/") = true) as ->.
  { apply truthy_true. destruct p; discriminate. }
  rewrite sapp_assoc. reflexivity.
Qed.

Lemma filePathOf_bare (p url : string) :
  p <> "" -> Js.endsWith p "/" = false ->
  filePathOf p url =
  p +:+ "/" +:+ (if String.eqb url "/" then "index.html" else Js.substring 1 url).
Proof.
  intros Hp He. unfold filePathOf. apply truthy_true in Hp. rewrite Hp, He. reflexivity.
Qed.

End LocatorFacts.

(** * The object key and the locator *)




(** C5 as stated fails where the prefix has a line terminator: the second
    group of the pattern stops there. *)
Lemma C5_counterexample :
  parseGcsPath ("gs://" +:+ "b" +:+ "/" +:+ ("p" +:+ nl +:+ "q")) = Some (mkGcsConfig "b" "p") /\
  mkGcsConfig "b" "p" <> mkGcsConfig "b" ("p" +:+ nl +:+ "q").
Proof. split; [vm_compute; reflexivity | discriminate]. Qed.

(** C5 (amended). For a non-empty bucket name [b] without a slash and a
    prefix [p] without a line terminator, the locator gs://b/p parses to the
    bucket [b] and the prefix [p]; a string that does not start with gs://
    parses to null. *)
Theorem C5_parse_locator :
  (forall b p : string,
     Js.truthy b = true -> Js.includes b "/" = false ->
     Closed.hasLineTerminator p = false ->
     parseGcsPath ("gs://" +:+ b +:+ "/" +:+ p) = Some (mkGcsConfig b p)) /\
  (forall s : string, Js.startsWith s "gs://" = false -> parseGcsPath s = None).
Proof.
  split.
  - intros b p Hb Hs Hp. rewrite parseGcsPath_closed.
    rewrite gsParse_bucket_slash; [| now apply truthy_true | exact Hs].
    now rewrite dotStar_id.
  - intros s H. rewrite parseGcsPath_closed. unfold Closed.gsParse.
    apply literal_startsWith in H. now rewrite H.
Qed.

Lemma C5_parse_locator_witness :
  parseGcsPath "gs://my-bucket/builds/web" = Some (mkGcsConfig "my-bucket" "builds/web") /\
  parseGcsPath "./Build" = None.
Proof.
  destruct C5_parse_locator as [H1 H2]. split.
  - apply (H1 "my-bucket" "builds/web"); reflexivity.
  - apply H2. reflexivity.
Defined.

(** C6 as stated fails: [parseGcsPath] keeps the trailing slash of a
    non-empty prefix, so the two locators give different configurations. *)
Lemma C6_counterexample :
  parseGcsPath "gs://bucket/prefix/" = Some (mkGcsConfig "bucket" "prefix/") /\
  parseGcsPath "gs://bucket/prefix" = Some (mkGcsConfig "bucket" "prefix") /\
  parseGcsPath "gs://bucket/prefix/" <> parseGcsPath "gs://bucket/prefix".
Proof. split_and!; [vm_compute; reflexivity .. | vm_compute; discriminate]. Qed.

(** C6 (amended). With an empty prefix, gs://b/ and gs://b parse to the same
    configuration.  With a non-empty prefix [p] that does not itself end in a
    slash, gs://b/p/ and gs://b/p parse to the same bucket, and the trailing
    slash is absorbed when the object key is built: both prefixes give the
    same key for every request. *)
Theorem C6_trailing_slash (b : string) :
  Js.truthy b = true -> Js.includes b "/" = false ->
  parseGcsPath ("gs://" +:+ b +:+ "/") = parseGcsPath ("gs://" +:+ b) /\
  forall p : string,
    Js.truthy p = true -> Js.endsWith p "/" = false ->
    exists c1 c2 : GcsConfig,
      parseGcsPath ("gs://" +:+ b +:+ "/" +:+ p +:+ "/") = Some c1 /\
      parseGcsPath ("gs://" +:+ b +:+ "/" +:+ p) = Some c2 /\
      bucketName c1 = b /\ bucketName c2 = b /\
      forall url : string, filePathOf (prefix c1) url = filePathOf (prefix c2) url.
Proof.
  intros Hb Hs. apply truthy_true in Hb. split.
  - rewrite !parseGcsPath_closed.
    change ("gs://" +:+ b +:+ "/") with ("gs://" +:+ b +:+ "/" +:+ "").
    rewrite (gsParse_bucket_slash b "" Hb Hs), (gsParse_bucket b Hb Hs). reflexivity.
  - intros p Hp He.
    exists (mkGcsConfig b (Closed.dotStar (p +:+ "/"))), (mkGcsConfig b (Closed.dotStar p)).
    rewrite !parseGcsPath_closed.
    rewrite (gsParse_bucket_slash b (p +:+ "/") Hb Hs), (gsParse_bucket_slash b p Hb Hs).
    split_and!; try reflexivity. intros url. cbn [prefix].
    rewrite dotStar_app_slash. destruct (Closed.hasLineTerminator p) eqn:Hlt; [reflexivity|].
    rewrite (dotStar_id p Hlt), filePathOf_slash.
    symmetry. apply filePathOf_bare; [now apply truthy_true | exact He].
Qed.

Lemma C6_trailing_slash_witness :
  parseGcsPath "gs://bucket/" = parseGcsPath "gs://bucket" /\
  exists c1 c2 : GcsConfig,
    parseGcsPath "gs://bucket/prefix/" = Some c1 /\
    parseGcsPath "gs://bucket/prefix" = Some c2 /\
    bucketName c1 = "bucket" /\ bucketName c2 = "bucket" /\
    forall url : string, filePathOf (prefix c1) url = filePathOf (prefix c2) url.
Proof.
  destruct (C6_trailing_slash "bucket") as [H0 H]; [reflexivity .. |].
  split; [exact H0 | apply (H "prefix"); reflexivity].
Defined.


(** * The handler *)

Lemma whenSome_set (field : string) (o : option string) (w : World) :
  whenSome o (res_set field) w =
  (Normal tt,
   mkWorld (mkResponse (statusCode (res w))
              (setIfTruthy field o (resHeaders (res w))) (payload (res w)))
     (calls w) (console w)).
Proof.
  destruct w as [[st h pl] cs co]. unfold whenSome, setIfTruthy.
  destruct o as [v|]; [destruct (Js.truthy v)|]; reflexivity.
Qed.

Section HandlerFacts.

Context (this : GcsHandler) (req : Request) (w : World).

Let file := fileOf this req.
Let h0 := resHeaders (res w).

(** Every run of the handler, by the outcomes of the storage calls. *)
Lemma handleRequest_cases :
  handleRequest this req w =
  (Normal tt,
   match file_exists (storage this) file with
   | Throw e => failed e h0 (calls w ++ [CallExists file]) w
   | Normal false =>
       mkWorld (mkResponse 404 h0 (Sent (notFoundBody (fileName file))))
         (calls w ++ [CallExists file]) (console w)
   | Normal true =>
       match file_getMetadata (storage this) file with
       | Throw e => failed e h0 (calls w ++ [CallExists file; CallGetMetadata file]) w
       | Normal metadata =>
           if notModified req metadata
           then mkWorld (mkResponse 304 h0 Ended)
                  (calls w ++ [CallExists file; CallGetMetadata file]) (console w)
           else
             let cs := calls w ++ [CallExists file; CallGetMetadata file;
                                   CallCreateReadStream file false] in
             match file_createReadStream (storage this) file false with
             | Throw e => failed e (deliveryHeaders metadata h0) cs w
             | Normal stream =>
                 mkWorld (mkResponse (statusCode (res w)) (deliveryHeaders metadata h0)
                            (Piped stream)) cs (console w)
             end
       end
   end).
Proof.
  subst file h0. unfold handleRequest, fileOf, notModified, tryCatch, failed.
  cbv [mbind M_bind mret M_ret storageCall]. cbn [fileName].
  set (f := mkFile _ _).
  destruct (file_exists (storage this) f) as [[|]|e]; cbn.
  - destruct (file_getMetadata (storage this) f) as [m|e]; cbn.
    + destruct (Js.truthyOpt (headers req !! "if-none-match") && Js.truthyOpt (etag m) &&
                Js.strictEq (headers req !! "if-none-match") (etag m)); cbn.
      * rewrite <- app_assoc. reflexivity.
      * rewrite !whenSome_set. cbn. rewrite <- !app_assoc. cbn.
        destruct (file_createReadStream (storage this) f false); reflexivity.
    + rewrite <- app_assoc. reflexivity.
  - reflexivity.
  - reflexivity.
Qed.

End HandlerFacts.

Lemma setIfTruthy_lookup (field : string) (o : option string) (h : gmap string string) :
  setIfTruthy field o h !! field = if Js.truthyOpt o then o else h !! field.
Proof.
  unfold setIfTruthy. destruct o as [v|]; cbn [Js.truthyOpt]; [|reflexivity].
  destruct (Js.truthy v); [apply lookup_insert_eq | reflexivity].
Qed.

Lemma setIfTruthy_lookup_ne (field name : string) (o : option string) (h : gmap string string) :
  field <> name -> setIfTruthy field o h !! name = h !! name.
Proof.
  intros Hne. unfold setIfTruthy. destruct o as [v|]; [|reflexivity].
  destruct (Js.truthy v); [now apply lookup_insert_ne | reflexivity].
Qed.

(** The test of the conditional request holds exactly when the client sent a
    non-empty validator and the object's ETag is that very string. *)
Lemma notModified_spec (req : Request) (metadata : Metadata) :
  notModified req metadata = true <->
  exists v : string,
    headers req !! "if-none-match" = Some v /\ v <> "" /\ etag metadata = Some v.
Proof.
  unfold notModified. split.
  - intros H. apply andb_prop in H as [H H3]. apply andb_prop in H as [H1 H2].
    destruct (headers req !! "if-none-match") as [v|]; [|discriminate].
    destruct (etag metadata) as [v'|]; [|discriminate].
    cbn in H1, H3. apply String.eqb_eq in H3 as <-.
    exists v. split_and!; [reflexivity | now apply truthy_true | reflexivity].
  - intros (v & -> & Hv & ->). apply truthy_true in Hv. cbn.
    rewrite Hv, String.eqb_refl. reflexivity.
Qed.

Lemma filePathOf_suffix (p u : string) :
  exists pp : string,
    filePathOf p u = pp +:+ (if String.eqb u "/" then "index.html" else Js.substring 1 u).
Proof.
  unfold filePathOf. destruct (Js.truthy p).
  - exists (p +:+ (if Js.endsWith p "/" then "" else "/")). now rewrite sapp_assoc.
  - now exists "".
Qed.

(** The 404 body shows the object key, and so every end of it. *)
Lemma notFoundBody_includes (pp x : string) :
  Js.includes (notFoundBody (pp +:+ x)) x = true.
Proof.
  unfold notFoundBody.
  replace (nl +:+ "          <h1>File Not Found</h1>" +:+
           nl +:+ "          <p>File not found in GCS: " +:+ (pp +:+ x) +:+ "</p>" +:+
           nl +:+ "        ")
    with ((nl +:+ "          <h1>File Not Found</h1>" +:+
           nl +:+ "          <p>File not found in GCS: " +:+ pp) +:+ x +:+ "</p>" +:+
           nl +:+ "        ")
    by (now rewrite !sapp_assoc).
  apply includes_app.
Qed.

(** * Conditional requests, errors and delivery *)

(** Replace a run of the handler by its case analysis. *)
Ltac run_handler :=
  unfold after; rewrite !handleRequest_cases; cbv zeta; cbn [snd].

(** C1. For an object that exists and whose metadata was fetched: when the
    request carries a non-empty If-None-Match equal, character for character,
    to the object's ETag, the response is 304 with no body and the handler
    sets no header; in every other case the handler goes on to delivery (the
    read stream is requested, and when it is obtained it is piped under the
    status the response had); an object without ETag is always delivered. *)
Theorem C1_conditional_request (this : GcsHandler) (req : Request) (w : World)
    (metadata : Metadata) :
  file_exists (storage this) (fileOf this req) = Normal true ->
  file_getMetadata (storage this) (fileOf this req) = Normal metadata ->
  let file := fileOf this req in
  let w' := after this req w in
  let delivered :=
    calls w' = calls w ++ [CallExists file; CallGetMetadata file;
                           CallCreateReadStream file false] /\
    payload (res w') <> Ended /\
    forall stream : Stream,
      file_createReadStream (storage this) file false = Normal stream ->
      statusCode (res w') = statusCode (res w) /\ payload (res w') = Piped stream in
  ((exists v : string,
      headers req !! "if-none-match" = Some v /\ v <> "" /\ etag metadata = Some v) ->
   res w' = mkResponse 304 (resHeaders (res w)) Ended) /\
  (~ (exists v : string,
        headers req !! "if-none-match" = Some v /\ v <> "" /\ etag metadata = Some v) ->
   delivered) /\
  (etag metadata = None -> delivered).
Proof.
  intros Hex Hmeta file w' delivered.
  assert (notModified req metadata = false -> delivered) as Hdeliver.
  { intros Hnm. subst delivered w' file. run_handler. rewrite Hex, Hmeta, Hnm.
    destruct (file_createReadStream (storage this) (fileOf this req) false) as [s|e] eqn:Hs;
      cbn; split_and!; try reflexivity; try discriminate.
    intros stream [= <-]. split; reflexivity. }
  split_and!.
  - intros Hm. apply notModified_spec in Hm.
    subst w' file. run_handler. rewrite Hex, Hmeta, Hm. reflexivity.
  - intros Hm. apply Hdeliver.
    destruct (notModified req metadata) eqn:E; [|reflexivity].
    exfalso. apply Hm. now apply notModified_spec.
  - intros Hnone. apply Hdeliver.
    destruct (notModified req metadata) eqn:E; [|reflexivity].
    apply notModified_spec in E as (v & _ & _ & Hv). congruence.
Qed.

Lemma C1_conditional_request_witness :
  res (after Sample.handler (Sample.getIfNoneMatch "/" "abc") freshWorld)
    = mkResponse 304 ∅ Ended /\
  payload (res (after Sample.handler (Sample.getIfNoneMatch "/" "xyz") freshWorld))
    = Piped Sample.content.
Proof.
  split.
  - destruct (C1_conditional_request Sample.handler (Sample.getIfNoneMatch "/" "abc")
                freshWorld Sample.metadata) as (H & _ & _); [reflexivity | reflexivity |].
    apply H. exists "abc". split_and!; [vm_compute; reflexivity | discriminate | reflexivity].
  - destruct (C1_conditional_request Sample.handler (Sample.getIfNoneMatch "/" "xyz")
                freshWorld Sample.metadata) as (_ & H & _); [reflexivity | reflexivity |].
    destruct H as (_ & _ & H).
    + intros (v & Hv & _ & He). vm_compute in Hv. cbn in He. congruence.
    + apply (H Sample.content). reflexivity.
Defined.

(** C2. When the existence check answers false, the response is a 404 whose
    body contains the object key, and with it the requested path after its
    first character; when the existence check, the metadata fetch or the
    creation of the read stream throws, the response is a 500 with the fixed
    body, not a 404. *)
Theorem C2_not_found_and_failure (this : GcsHandler) (req : Request) (w : World) :
  let file := fileOf this req in
  let w' := after this req w in
  (file_exists (storage this) file = Normal false ->
   statusCode (res w') = 404%Z /\
   exists body : string,
     payload (res w') = Sent body /\
     Js.includes body (fileName file) = true /\
     (url req <> "/" -> Js.includes body (Js.substring 1 (url req)) = true)) /\
  (forall e : Error,
     file_exists (storage this) file = Throw e \/
     (file_exists (storage this) file = Normal true /\
      file_getMetadata (storage this) file = Throw e) \/
     (file_exists (storage this) file = Normal true /\
      exists metadata : Metadata,
        file_getMetadata (storage this) file = Normal metadata /\
        notModified req metadata = false /\
        file_createReadStream (storage this) file false = Throw e) ->
     statusCode (res w') = 500%Z /\ statusCode (res w') <> 404%Z /\
     payload (res w') = Sent "Internal Server Error").
Proof.
  intros file w'. subst w'. run_handler. fold file.
  split.
  - intros ->. cbn. split; [reflexivity|].
    exists (notFoundBody (fileName file)). split_and!; [reflexivity | |].
    + apply (notFoundBody_includes "").
    + intros Hurl. subst file. cbn [fileOf fileName].
      destruct (filePathOf_suffix (handlerPrefix this) (url req)) as [pp ->].
      destruct (String.eqb_spec (url req) "/") as [|_]; [contradiction|].
      apply notFoundBody_includes.
  - intros e [-> | [[-> ->] | [-> (m & -> & -> & ->)]]]; cbn; split_and!;
      (reflexivity || discriminate).
Qed.

Lemma C2_not_found_and_failure_witness :
  statusCode (res (after Sample.handler (Sample.get "/Build/missing.js") freshWorld)) = 404%Z /\
  statusCode (res (after Sample.brokenHandler (Sample.get "/") freshWorld)) = 500%Z.
Proof.
  split.
  - destruct (C2_not_found_and_failure Sample.handler (Sample.get "/Build/missing.js") freshWorld)
      as [H _]. apply H. reflexivity.
  - destruct (C2_not_found_and_failure Sample.brokenHandler (Sample.get "/") freshWorld)
      as [_ H]. apply (H (mkError "ECONNREFUSED")). left. reflexivity.
Defined.

(** C4. On a delivery (the object exists, its metadata was fetched, and the
    request is not answered 304), the handler sets ETag, Content-Type and
    Content-Encoding to the metadata's value when the metadata has one (a
    present, non-empty string) and leaves each as it was otherwise; it sets
    Cache-Control to no-cache in every case, touches no other header, and
    requests the read stream with decompression off. *)
Theorem C4_delivery_headers (this : GcsHandler) (req : Request) (w : World)
    (metadata : Metadata) :
  file_exists (storage this) (fileOf this req) = Normal true ->
  file_getMetadata (storage this) (fileOf this req) = Normal metadata ->
  notModified req metadata = false ->
  let file := fileOf this req in
  let h0 := resHeaders (res w) in
  let h := resHeaders (res (after this req w)) in
  h !! "ETag" = (if Js.truthyOpt (etag metadata) then etag metadata else h0 !! "ETag") /\
  h !! "Content-Type" =
    (if Js.truthyOpt (contentType metadata) then contentType metadata
     else h0 !! "Content-Type") /\
  h !! "Content-Encoding" =
    (if Js.truthyOpt (contentEncoding metadata) then contentEncoding metadata
     else h0 !! "Content-Encoding") /\
  h !! "Cache-Control" = Some "no-cache" /\
  (forall name : string,
     name <> "ETag" -> name <> "Content-Type" -> name <> "Content-Encoding" ->
     name <> "Cache-Control" -> h !! name = h0 !! name) /\
  calls (after this req w) =
    calls w ++ [CallExists file; CallGetMetadata file; CallCreateReadStream file false].
Proof.
  intros Hex Hmeta Hnm file h0 h.
  assert (h = deliveryHeaders metadata h0 /\
          calls (after this req w) =
            calls w ++ [CallExists file; CallGetMetadata file;
                        CallCreateReadStream file false]) as [-> ->].
  { subst h h0 file. run_handler. rewrite Hex, Hmeta, Hnm.
    destruct (file_createReadStream (storage this) (fileOf this req) false);
      split; reflexivity. }
  unfold deliveryHeaders. split_and!.
  - rewrite lookup_insert_ne by discriminate.
    rewrite !setIfTruthy_lookup_ne by discriminate. apply setIfTruthy_lookup.
  - rewrite lookup_insert_ne by discriminate.
    rewrite setIfTruthy_lookup_ne by discriminate.
    rewrite setIfTruthy_lookup. now rewrite setIfTruthy_lookup_ne by discriminate.
  - rewrite lookup_insert_ne by discriminate.
    rewrite setIfTruthy_lookup. now rewrite !setIfTruthy_lookup_ne by discriminate.
  - apply lookup_insert_eq.
  - intros name H1 H2 H3 H4.
    rewrite lookup_insert_ne by congruence.
    now rewrite !setIfTruthy_lookup_ne by congruence.
  - reflexivity.
Qed.

Lemma C4_delivery_headers_witness :
  let w' := after Sample.handler (Sample.getIfNoneMatch "/" "xyz") freshWorld in
  resHeaders (res w') !! "ETag" = Some "abc" /\
  resHeaders (res w') !! "Content-Type" = Some "text/html" /\
  resHeaders (res w') !! "Content-Encoding" = Some "gzip" /\
  resHeaders (res w') !! "Cache-Control" = Some "no-cache" /\
  calls w' = [CallExists Sample.indexFile; CallGetMetadata Sample.indexFile;
              CallCreateReadStream Sample.indexFile false].
Proof.
  destruct (C4_delivery_headers Sample.handler (Sample.getIfNoneMatch "/" "xyz")
              freshWorld Sample.metadata) as (H1 & H2 & H3 & H4 & _ & H5);
    [reflexivity | reflexivity | vm_compute; reflexivity |].
  cbv zeta. split_and!; [exact H1 | exact H2 | exact H3 | exact H4 | exact H5].
Defined.

(** C9 as stated fails for two methods.  An OPTIONS request is answered by
    the cors middleware with 204 and never reaches the handler, where a GET
    for the same URL is answered 200 after three storage calls; and a HEAD
    request gets no body where the GET gets the object. *)
Lemma C9_counterexample :
  statusCode (res (snd (serveRemote Sample.handler (mkRequest "GET" "/" ∅) freshWorld)))
    = 200%Z /\
  statusCode (res (snd (serveRemote Sample.handler (mkRequest "OPTIONS" "/" ∅) freshWorld)))
    = 204%Z /\
  calls (snd (serveRemote Sample.handler (mkRequest "OPTIONS" "/" ∅) freshWorld)) = [] /\
  bodyOnWire "GET"
    (res (snd (serveRemote Sample.handler (mkRequest "GET" "/" ∅) freshWorld)))
    = ["<html>"; "</html>"] /\
  bodyOnWire "HEAD"
    (res (snd (serveRemote Sample.handler (mkRequest "HEAD" "/" ∅) freshWorld)))
    = [].
Proof. split_and!; vm_compute; reflexivity. Qed.

(** C9 (amended). In remote mode, two requests handed to the application
    that differ in the method only, neither of them OPTIONS (in any case of
    letters), leave the same response (status, headers, payload), the same
    storage calls and the same console, and the handler itself gives the
    same result for any two methods.  When neither or both of them are HEAD
    the body on the wire is the same as well; a HEAD request gets no body.
    An OPTIONS request is answered by the cors middleware, with 204 and no
    body, without any storage call. *)
Theorem C9_method_independent (this : GcsHandler) (m1 m2 u : string)
    (hs : gmap string string) (w : World) :
  String.eqb (Js.toUpperCase m1) "OPTIONS" = false ->
  String.eqb (Js.toUpperCase m2) "OPTIONS" = false ->
  let w1 := snd (serveRemote this (mkRequest m1 u hs) w) in
  let w2 := snd (serveRemote this (mkRequest m2 u hs) w) in
  w1 = w2 /\
  handleRequest this (mkRequest m1 u hs) w = handleRequest this (mkRequest m2 u hs) w /\
  (String.eqb m1 "HEAD" = String.eqb m2 "HEAD" ->
   bodyOnWire m1 (res w1) = bodyOnWire m2 (res w2)) /\
  bodyOnWire "HEAD" (res w1) = [] /\
  (forall m : string,
     String.eqb (Js.toUpperCase m) "OPTIONS" = true ->
     let wo := snd (serveRemote this (mkRequest m u hs) w) in
     statusCode (res wo) = 204%Z /\ payload (res wo) = Ended /\
     bodyOnWire m (res wo) = [] /\
     calls wo = calls w /\ console wo = console w).
Proof.
  intros H1 H2 w1 w2.
  assert (w1 = w2) as Hsame.
  { subst w1 w2. unfold serveRemote, corsMiddleware. cbn [method].
    rewrite H1, H2. cbv iota beta. rewrite !handleRequest_cases. reflexivity. }
  split_and!.
  - exact Hsame.
  - rewrite !handleRequest_cases. reflexivity.
  - intros Hhead. rewrite <- Hsame. unfold bodyOnWire. now rewrite Hhead.
  - reflexivity.
  - intros m Hm wo. subst wo. unfold serveRemote, corsMiddleware. cbn [method].
    rewrite Hm. cbn. unfold bodyOnWire. cbn.
    rewrite !orb_true_r. split_and!; reflexivity.
Qed.

Lemma C9_method_independent_witness :
  snd (serveRemote Sample.handler (mkRequest "GET" "/Build/game.data" ∅) freshWorld) =
  snd (serveRemote Sample.handler (mkRequest "POST" "/Build/game.data" ∅) freshWorld) /\
  bodyOnWire "GET"
    (res (snd (serveRemote Sample.handler (mkRequest "GET" "/" ∅) freshWorld))) =
  bodyOnWire "DELETE"
    (res (snd (serveRemote Sample.handler (mkRequest "DELETE" "/" ∅) freshWorld))).
Proof.
  split.
  - destruct (C9_method_independent Sample.handler "GET" "POST" "/Build/game.data" ∅ freshWorld)
      as (H & _); [reflexivity | reflexivity |]. exact H.
  - destruct (C9_method_independent Sample.handler "GET" "DELETE" "/" ∅ freshWorld)
      as (_ & _ & H & _); [reflexivity | reflexivity |]. apply H. reflexivity.
Defined.

(** C10. Whenever the handler turns a response that was not yet 304 into a
    304, the storage client saw exactly the existence check and the metadata
    fetch, in that order (no read stream was created), the response was
    ended without a body, and its headers are the ones it had before: none
    of ETag, Content-Type, Content-Encoding and Cache-Control was set. *)
Theorem C10_not_modified_frame (this : GcsHandler) (req : Request) (w : World) :
  statusCode (res w) <> 304%Z ->
  statusCode (res (after this req w)) = 304%Z ->
  let file := fileOf this req in
  let w' := after this req w in
  calls w' = calls w ++ [CallExists file; CallGetMetadata file] /\
  payload (res w') = Ended /\
  resHeaders (res w') = resHeaders (res w) /\
  resHeaders (res w') !! "ETag" = resHeaders (res w) !! "ETag" /\
  resHeaders (res w') !! "Content-Type" = resHeaders (res w) !! "Content-Type" /\
  resHeaders (res w') !! "Content-Encoding" = resHeaders (res w) !! "Content-Encoding" /\
  resHeaders (res w') !! "Cache-Control" = resHeaders (res w) !! "Cache-Control".
Proof.
  intros H0 H file w'. subst w' file. revert H. run_handler.
  destruct (file_exists (storage this) (fileOf this req)) as [[|]|e];
    [| cbn; discriminate | cbn; discriminate ].
  destruct (file_getMetadata (storage this) (fileOf this req)) as [m|e];
    [| cbn; discriminate ].
  destruct (notModified req m).
  - intros _. cbn. split_and!; reflexivity.
  - destruct (file_createReadStream (storage this) (fileOf this req) false);
      cbn; [contradiction | discriminate].
Qed.

Lemma C10_not_modified_frame_witness :
  let w' := after Sample.handler (Sample.getIfNoneMatch "/" "abc") freshWorld in
  calls w' = [CallExists Sample.indexFile; CallGetMetadata Sample.indexFile] /\
  payload (res w') = Ended /\
  resHeaders (res w') = ∅.
Proof.
  destruct (C10_not_modified_frame Sample.handler (Sample.getIfNoneMatch "/" "abc")
              freshWorld) as (H1 & H2 & H3 & _);
    [vm_compute; discriminate | vm_compute; reflexivity |].
  cbv zeta. split_and!; [exact H1 | exact H2 | exact H3].
Defined.


(** * The header table of local mode *)

Section ExtnameFacts.

Import Path.

Lemma chars_app (a b : string) :
  list_ascii_of_string (a +:+ b) = list_ascii_of_string a ++ list_ascii_of_string b.
Proof. induction a as [|c a IH]; simpl; [reflexivity | now rewrite IH]. Qed.

Lemma chars_length (s : string) : length (list_ascii_of_string s) = String.length s.
Proof. induction s as [|c s IH]; simpl; [reflexivity | now rewrite IH]. Qed.

Lemma plainName_app (a b : list ascii) :
  plainName (a ++ b) = plainName a && plainName b.
Proof.
  induction a as [|c a IH]; simpl; [reflexivity|].
  rewrite IH. now rewrite !andb_assoc.
Qed.

Lemma plainName_rev (a : list ascii) : plainName (rev a) = plainName a.
Proof.
  induction a as [|c a IH]; simpl; [reflexivity|].
  rewrite plainName_app, IH. simpl. rewrite andb_true_r. apply andb_comm.
Qed.

(** Past the end marker and before any dot, plain characters change nothing. *)
Lemma extLoop_plain (l r : list ascii) (st : ExtState) :
  plainName l = true -> end_ st <> (-1)%Z -> startDot st = (-1)%Z ->
  extLoop (l ++ r) st = extLoop r st.
Proof.
  induction l as [|c l IH]; intros Hl He Hd; [reflexivity|].
  simpl in Hl. apply andb_prop in Hl as [Hc Hl]. apply andb_prop in Hc as [Hdot Hslash].
  apply negb_true_iff in Hdot, Hslash.
  simpl. rewrite Hslash. unfold extStep.
  destruct (Z.eqb_spec (end_ st) (-1)); [contradiction|].
  rewrite Hdot, Hd. cbn. now apply IH.
Qed.

Lemma extLoop_found (dotAt endAt : Z) (r : list ascii) : forall st : ExtState,
  (0 <= dotAt)%Z -> (0 <= endAt)%Z ->
  extFound dotAt endAt st -> extFound dotAt endAt (extLoop r st).
Proof.
  induction r as [|c r IH]; intros st Hd He Hst; [exact Hst|].
  destruct Hst as (H1 & H2 & H3 & H4). simpl.
  destruct (Ascii.eqb c "/").
  - rewrite H4. cbn. repeat split; assumption.
  - apply IH; try assumption. unfold extStep, extFound.
    destruct (Z.eqb_spec (end_ st) (-1)); [lia|].
    destruct (Z.eqb_spec (startDot st) (-1)); [lia|].
    destruct (Ascii.eqb c "."); cbn.
    + destruct (Z.eqb_spec (preDotState st) 1); cbn; repeat split; try assumption; lia.
    + repeat split; try assumption; lia.
Qed.

Lemma extLoop_cons (c : ascii) (r : list ascii) (st : ExtState) :
  Ascii.eqb c "/" = false ->
  extLoop (c :: r) st = extLoop r (extStep c (Z.of_nat (length r)) st).
Proof. intros H. simpl. now rewrite H. Qed.

Lemma extStep_first (c : ascii) (i : Z) :
  Ascii.eqb c "." = false -> extStep c i extInit = markEnd (i + 1) extInit.
Proof. intros H. unfold extStep. cbn. now rewrite H. Qed.

Lemma extStep_dot (i endAt : Z) :
  (0 <= endAt)%Z ->
  extStep "." i (markEnd endAt extInit) = setStartDot i (markEnd endAt extInit).
Proof.
  intros H. unfold extStep. cbn [end_ markEnd].
  destruct (Z.eqb_spec endAt (-1)); [lia|]. reflexivity.
Qed.

Lemma extStep_before_dot (c : ascii) (i dotAt endAt : Z) :
  (0 <= dotAt)%Z -> (0 <= endAt)%Z ->
  extFound dotAt endAt (extStep c i (setStartDot dotAt (markEnd endAt extInit))).
Proof.
  intros Hd He. unfold extStep, extFound. cbn [end_ markEnd setStartDot startDot].
  destruct (Z.eqb_spec endAt (-1)); [lia|].
  cbn [end_ markEnd setStartDot startDot].
  destruct (Z.eqb_spec dotAt (-1)); [lia|].
  destruct (Ascii.eqb c "."); cbn; repeat split; lia.
Qed.

(** A name that ends in a dot and a plain, non-empty extension, after at
    least one character that is not a slash, has that extension. *)
Lemma extname_suffix (pre : string) (c : ascii) (e : string) :
  Ascii.eqb c "/" = false -> Js.truthy e = true ->
  plainName (list_ascii_of_string e) = true ->
  extname (pre +:+ String c (String "." e)) = String "." e.
Proof.
  intros Hc He Hplain. unfold extname.
  set (path := pre +:+ String c (String "." e)).
  set (dotAt := Z.of_nat (S (String.length pre))).
  set (endAt := Z.of_nat (String.length path)).
  assert (String.length path = (String.length pre + 2 + String.length e)%nat) as Hlen.
  { subst path. rewrite slength_app. simpl. lia. }
  assert (String.length e <> 0%nat) as Hne.
  { apply truthy_true in He. destruct e; [congruence | discriminate]. }
  assert (extFound dotAt endAt (extLoop (rev (list_ascii_of_string path)) extInit)) as Hfound.
  { subst path. rewrite chars_app. cbn [list_ascii_of_string].
    rewrite rev_app_distr. cbn [rev]. rewrite <- !app_assoc. cbn [app].
    set (R := rev (list_ascii_of_string pre)).
    assert (length R = String.length pre) as HR.
    { subst R. rewrite length_rev. apply chars_length. }
    destruct (rev (list_ascii_of_string e)) as [|x l] eqn:Hrev.
    { apply (f_equal (@length ascii)) in Hrev. rewrite length_rev, chars_length in Hrev.
      simpl in Hrev. lia. }
    assert (plainName (x :: l) = true) as Hxl.
    { rewrite <- Hrev, plainName_rev. exact Hplain. }
    simpl in Hxl. apply andb_prop in Hxl as [Hx Hl]. apply andb_prop in Hx as [Hxd Hxs].
    apply negb_true_iff in Hxd, Hxs.
    assert (S (length l) = String.length e) as Hlxl.
    { change (S (length l)) with (length (x :: l)).
      rewrite <- Hrev, length_rev. apply chars_length. }
    cbn [app]. rewrite (extLoop_cons x _ _ Hxs), (extStep_first x _ Hxd).
    assert (Z.of_nat (length (l ++ "."%char :: c :: R)) + 1 = endAt)%Z as ->.
    { subst endAt. rewrite Hlen, length_app. cbn [length]. lia. }
    rewrite extLoop_plain; [| exact Hl | cbn; lia | reflexivity].
    rewrite (extLoop_cons "." _ _ eq_refl), extStep_dot by lia.
    assert (Z.of_nat (length (c :: R)) = dotAt) as ->.
    { subst dotAt. cbn [length]. lia. }
    rewrite (extLoop_cons c _ _ Hc).
    apply extLoop_found; [lia | lia |].
    apply extStep_before_dot; lia. }
  destruct Hfound as (H1 & H2 & H3 & H4). rewrite H1, H2.
  subst dotAt endAt.
  repeat match goal with
         | |- context [(?a =? ?b)%Z] => destruct (Z.eqb_spec a b); try lia
         end; cbn [orb andb].
  all: unfold Js.slice; rewrite !Nat2Z.id, Hlen.
  all: replace (String.length pre + 2 + String.length e - S (String.length pre))%nat
         with (String.length (String "." e)) by (simpl; lia).
  all: subst path; replace (pre +:+ String c (String "." e))
         with ((pre +:+ String c "") +:+ String "." e) by (now rewrite sapp_assoc).
  all: replace (S (String.length pre)) with (String.length (pre +:+ String c ""))
         by (rewrite slength_app; simpl; lia).
  all: rewrite substring_app; rewrite <- (sapp_nil_r (String "." e)) at 2; apply take_app.
Qed.

End ExtnameFacts.

(** C7 as stated fails for a name that is nothing but the extension: the
    URL ends in .wasm, [extname] gives the empty string for it, and no header
    is set. *)
Lemma C7_counterexample :
  Js.endsWith "/.wasm" ".wasm" = true /\
  Path.extname "/.wasm" = "" /\
  headerMiddleware false (mkRequest "GET" "/.wasm" ∅) freshResponse = freshResponse.
Proof. split_and!; vm_compute; reflexivity. Qed.

(** C7 (amended). In local mode the headers set for a request depend on its
    URL only.  For a URL that ends in one of the extensions below after at
    least one character of the last path component (a character other than a
    slash): .wasm sets Content-Type application/wasm; .js sets
    application/javascript; .data and .unityweb set application/octet-stream;
    .gz sets Content-Encoding gzip and .br sets Content-Encoding br, both with
    the Content-Type application/wasm if the URL contains [.wasm.], else
    application/javascript if it contains [.js.], else
    application/octet-stream.  So /app.wasm, /app.data.gz and /app.js.br get
    the headers the table gives. *)
Theorem C7_local_header_table (m : string) (hs : gmap string string)
    (pre : string) (c : ascii) (res : Response) :
  Ascii.eqb c "/" = false ->
  let serve := fun ext : string =>
    headerMiddleware false (mkRequest m (pre +:+ String c ext) hs) res in
  let compressedType := fun ext : string =>
    if Js.includes (pre +:+ String c ext) ".wasm." then "application/wasm"
    else if Js.includes (pre +:+ String c ext) ".js." then "application/javascript"
    else "application/octet-stream" in
  serve ".wasm" = setHeader "Content-Type" "application/wasm" res /\
  serve ".js" = setHeader "Content-Type" "application/javascript" res /\
  serve ".data" = setHeader "Content-Type" "application/octet-stream" res /\
  serve ".unityweb" = setHeader "Content-Type" "application/octet-stream" res /\
  serve ".gz" =
    setHeader "Content-Type" (compressedType ".gz") (setHeader "Content-Encoding" "gzip" res) /\
  serve ".br" =
    setHeader "Content-Type" (compressedType ".br") (setHeader "Content-Encoding" "br" res) /\
  resHeaders (headerMiddleware false (mkRequest m "/app.wasm" hs) freshResponse)
    = {[ "Content-Type" := "application/wasm" ]} /\
  resHeaders (headerMiddleware false (mkRequest m "/app.data.gz" hs) freshResponse)
    = {[ "Content-Type" := "application/octet-stream"; "Content-Encoding" := "gzip" ]} /\
  resHeaders (headerMiddleware false (mkRequest m "/app.js.br" hs) freshResponse)
    = {[ "Content-Type" := "application/javascript"; "Content-Encoding" := "br" ]}.
Proof.
  intros Hc serve compressedType. subst serve compressedType.
  unfold headerMiddleware, getContentTypeForCompressedFile. cbn [url].
  split_and!.
  - now rewrite (extname_suffix pre c "wasm" Hc).
  - now rewrite (extname_suffix pre c "js" Hc).
  - now rewrite (extname_suffix pre c "data" Hc).
  - now rewrite (extname_suffix pre c "unityweb" Hc).
  - rewrite (extname_suffix pre c "gz" Hc) by reflexivity. cbn.
    destruct (Js.includes _ ".wasm."); [reflexivity|].
    destruct (Js.includes _ ".js."); [reflexivity|].
    destruct (Js.includes _ ".data."); reflexivity.
  - rewrite (extname_suffix pre c "br" Hc) by reflexivity. cbn.
    destruct (Js.includes _ ".wasm."); [reflexivity|].
    destruct (Js.includes _ ".js."); [reflexivity|].
    destruct (Js.includes _ ".data."); reflexivity.
  - reflexivity.
  - reflexivity.
  - reflexivity.
Qed.

Lemma C7_local_header_table_witness :
  headerMiddleware false (Sample.get "/Build/game.wasm") freshResponse
    = setHeader "Content-Type" "application/wasm" freshResponse /\
  headerMiddleware false (Sample.get "/Build/game.framework.js.gz") freshResponse
    = setHeader "Content-Type" "application/javascript"
        (setHeader "Content-Encoding" "gzip" freshResponse).
Proof.
  split.
  - destruct (C7_local_header_table "GET" ∅ "/Build/gam" "e" freshResponse) as (H & _);
      [reflexivity|]. exact H.
  - destruct (C7_local_header_table "GET" ∅ "/Build/game.framework.j" "s" freshResponse)
      as (_ & _ & _ & _ & H & _); [reflexivity|]. exact H.
Defined.

(** * More on the locator *)

Section LocatorMore.

Import Regex Closed.

Lemma literal_split (p : string) : forall s s1 : string,
  literal p s = Some s1 -> s = p +:+ s1.
Proof.
  induction p as [|a p IH]; intros s s1 H; simpl in H.
  - now inversion H.
  - destruct s as [|b s]; [discriminate|].
    destruct (Ascii.eqb_spec b a) as [->|]; [|discriminate].
    simpl. f_equal. now apply IH.
Qed.

Lemma notSlashRun_rest (s : string) :
  snd (notSlashRun s) = "" \/ exists r : string, snd (notSlashRun s) = String "/" r.
Proof.
  induction s as [|c s IH]; simpl; [now left|].
  destruct (Ascii.eqb_spec c "/") as [->|]; simpl; [right; now exists s | exact IH].
Qed.

Lemma notSlashRun_no_slash (s : string) : Js.includes (fst (notSlashRun s)) "/" = false.
Proof.
  induction s as [|c s IH]; [reflexivity|].
  cbn [notSlashRun]. destruct (Ascii.eqb c "/") eqn:E; cbn [fst]; [reflexivity|].
  rewrite includes_unfold, IH. cbn [Js.startsWith].
  now rewrite (Ascii.eqb_sym "/" c), E.
Qed.

Lemma notSlashRun_empty (s : string) :
  Js.truthy (fst (notSlashRun s)) = false <-> s = "" \/ Js.startsWith s "/" = true.
Proof.
  destruct s as [|c s]; [split; [now left | reflexivity]|].
  cbn [notSlashRun Js.startsWith]. rewrite andb_true_r, (Ascii.eqb_sym "/" c).
  destruct (Ascii.eqb c "/"); cbn [fst].
  - split; [now right | reflexivity].
  - split; [discriminate | intros [|]; discriminate].
Qed.

Lemma lineTerminatorAt_app (q r : string) :
  lineTerminatorAt q = true -> lineTerminatorAt (q +:+ r) = true.
Proof.
  destruct q as [|c [|c1 [|c2 q]]]; simpl; try discriminate; try (intros ->; reflexivity).
  - rewrite andb_false_r, orb_false_r. intros ->. reflexivity.
  - rewrite andb_false_r, orb_false_r. intros ->. reflexivity.
Qed.

Lemma dotRest_head (s : string) : dotRest s = "" \/ lineTerminatorAt (dotRest s) = true.
Proof.
  induction s as [|c s IH]; [now left|].
  cbn [dotRest]. destruct (lineTerminatorAt (String c s)) eqn:E; [now right | exact IH].
Qed.

Lemma dotStar_clean (s : string) : hasLineTerminator (dotStar s) = false.
Proof.
  induction s as [|c s IH]; [reflexivity|].
  cbn [dotStar]. destruct (lineTerminatorAt (String c s)) eqn:E; [reflexivity|].
  cbn [hasLineTerminator]. rewrite IH, orb_false_r.
  destruct (lineTerminatorAt (String c (dotStar s))) eqn:E'; [|reflexivity].
  apply (lineTerminatorAt_app _ (dotRest s)) in E'.
  simpl String.append in E'. rewrite dotStar_app in E'. congruence.
Qed.

End LocatorMore.

Lemma gsParse_none (s : string) :
  Closed.gsParse s = None <->
  Js.startsWith s "gs://" = false \/ s = "gs://" \/ Js.startsWith s "gs:///" = true.
Proof.
  unfold Closed.gsParse.
  destruct (Closed.literal "gs://" s) as [s1|] eqn:Hlit.
  - pose proof (literal_split _ _ _ Hlit) as ->.
    assert (Js.startsWith ("gs://" +:+ s1) "gs://" = true) as Hs by apply startsWith_app.
    destruct (Js.truthy (fst (Closed.notSlashRun s1))) eqn:Ht.
    + split; [discriminate|]. intros [H | [H | H]].
      * congruence.
      * assert (s1 = "") as -> by (simpl in H; now inversion H).
        discriminate Ht.
      * assert (Js.truthy (fst (Closed.notSlashRun s1)) = false) as Hf.
        { apply notSlashRun_empty. right. destruct s1 as [|x s1]; [discriminate H|].
          simpl in H. simpl. exact H. }
        congruence.
    + split; [intros _ | reflexivity].
      apply notSlashRun_empty in Ht as [-> | Ht]; [right; now left|].
      right. right. destruct s1 as [|x s1]; [discriminate Ht|].
      simpl in Ht. simpl. exact Ht.
  - apply literal_startsWith in Hlit. split; [intros _; now left | reflexivity].
Qed.

(** X1. A locator that parses is read back from its parts: it is gs:// and
    the bucket name alone (the prefix is then empty), or gs://, the bucket
    name, one slash, the prefix, and then nothing or a rest that starts with
    a line terminator. *)
Theorem X1_parse_reassembles (s : string) (c : GcsConfig) :
  parseGcsPath s = Some c ->
  (s = "gs://" +:+ bucketName c /\ prefix c = "") \/
  (exists tail : string,
     s = "gs://" +:+ bucketName c +:+ "/" +:+ prefix c +:+ tail /\
     (tail = "" \/ Regex.lineTerminatorAt tail = true)).
Proof.
  rewrite parseGcsPath_closed. unfold Closed.gsParse.
  destruct (Closed.literal "gs://" s) as [s1|] eqn:Hlit; [|discriminate].
  apply literal_split in Hlit.
  destruct (Js.truthy (fst (Closed.notSlashRun s1))); [|discriminate].
  intros [= <-]. cbn [bucketName prefix].
  pose proof (notSlashRun_app s1) as Happ.
  destruct (notSlashRun_rest s1) as [Hrest | [r Hrest]]; rewrite Hrest in *.
  - left. rewrite sapp_nil_r in Happ. rewrite Happ. split; [exact Hlit | reflexivity].
  - right. exists (Closed.dotRest r). cbn [Closed.optSlash]. rewrite Ascii.eqb_refl.
    split; [| apply dotRest_head].
    change ("/" +:+ Closed.dotStar r +:+ Closed.dotRest r)
      with (String "/" (Closed.dotStar r +:+ Closed.dotRest r)).
    rewrite dotStar_app, Happ. exact Hlit.
Qed.

Lemma X1_parse_reassembles_witness :
  ("gs://my-bucket/builds/web" = "gs://" +:+ "my-bucket" /\ "builds/web" = "") \/
  (exists tail : string,
     "gs://my-bucket/builds/web" = "gs://" +:+ "my-bucket" +:+ "/" +:+ "builds/web" +:+ tail /\
     (tail = "" \/ Regex.lineTerminatorAt tail = true)).
Proof.
  apply (X1_parse_reassembles "gs://my-bucket/builds/web" (mkGcsConfig "my-bucket" "builds/web")).
  vm_compute. reflexivity.
Defined.

(** X2. [parseGcsPath] gives null exactly for the strings that do not start
    with gs://, for gs:// alone, and for gs:// followed by a slash: a bucket
    name must follow. *)
Theorem X2_parse_rejects (s : string) :
  parseGcsPath s = None <->
  Js.startsWith s "gs://" = false \/ s = "gs://" \/ Js.startsWith s "gs:///" = true.
Proof. rewrite parseGcsPath_closed. apply gsParse_none. Qed.

(** X3. Whatever the input, a configuration that [parseGcsPath] returns has
    a non-empty bucket name without a slash and a prefix without a line
    terminator. *)
Theorem X3_parse_invariants (s : string) (c : GcsConfig) :
  parseGcsPath s = Some c ->
  bucketName c <> "" /\
  Js.includes (bucketName c) "/" = false /\
  Closed.hasLineTerminator (prefix c) = false.
Proof.
  rewrite parseGcsPath_closed. unfold Closed.gsParse.
  destruct (Closed.literal "gs://" s) as [s1|]; [|discriminate].
  destruct (Js.truthy (fst (Closed.notSlashRun s1))) eqn:Ht; [|discriminate].
  intros [= <-]. cbn [bucketName prefix]. split_and!.
  - now apply truthy_true.
  - apply notSlashRun_no_slash.
  - apply dotStar_clean.
Qed.

Lemma X3_parse_invariants_witness :
  "b" <> "" /\ Js.includes "b" "/" = false /\ Closed.hasLineTerminator "p" = false.
Proof.
  apply (X3_parse_invariants ("gs://b/p" +:+ nl +:+ "q") (mkGcsConfig "b" "p")).
  vm_compute. reflexivity.
Defined.

(** * More on the handler *)

(** Headers and calls once the delivery branch is entered, whether or not the
    read stream is obtained. *)
Lemma delivery_state (this : GcsHandler) (req : Request) (w : World) (metadata : Metadata) :
  file_exists (storage this) (fileOf this req) = Normal true ->
  file_getMetadata (storage this) (fileOf this req) = Normal metadata ->
  notModified req metadata = false ->
  resHeaders (res (after this req w)) = deliveryHeaders metadata (resHeaders (res w)) /\
  calls (after this req w) =
    calls w ++ [CallExists (fileOf this req); CallGetMetadata (fileOf this req);
                CallCreateReadStream (fileOf this req) false].
Proof.
  intros Hex Hmeta Hnm. run_handler. rewrite Hex, Hmeta, Hnm.
  destruct (file_createReadStream (storage this) (fileOf this req) false);
    split; reflexivity.
Qed.

(** X4. The handler's own run always ends normally: what exists,
    getMetadata or createReadStream throw is caught, and the response is left
    in one of four states: a 404 with the not-found body, a 304 ended without
    body, a 500 with the fixed body, or the created stream piped under the
    status the response already had, with nothing logged.  A stream that
    breaks off while it is read is piped like any other, so its error is
    handled by nothing: that happens exactly when the object exists, its
    metadata does not answer the conditional request, and the stream that
    createReadStream returned fails. *)
Theorem X4_handler_outcomes (this : GcsHandler) (req : Request) (w : World) :
  fst (handleRequest this req w) = Normal tt /\
  ((statusCode (res (after this req w)) = 404%Z /\
    payload (res (after this req w)) = Sent (notFoundBody (fileName (fileOf this req)))) \/
   (statusCode (res (after this req w)) = 304%Z /\
    payload (res (after this req w)) = Ended) \/
   (statusCode (res (after this req w)) = 500%Z /\
    payload (res (after this req w)) = Sent "Internal Server Error") \/
   (statusCode (res (after this req w)) = statusCode (res w) /\
    console (after this req w) = console w /\
    exists stream : Stream,
      file_createReadStream (storage this) (fileOf this req) false = Normal stream /\
      payload (res (after this req w)) = Piped stream)) /\
  (forall e : Error,
     uncaught (after this req w) = Some e <->
     file_exists (storage this) (fileOf this req) = Normal true /\
     exists (metadata : Metadata) (stream : Stream),
       file_getMetadata (storage this) (fileOf this req) = Normal metadata /\
       notModified req metadata = false /\
       file_createReadStream (storage this) (fileOf this req) false = Normal stream /\
       failure stream = Some e).
Proof.
  run_handler. split; [reflexivity|].
  destruct (file_exists (storage this) (fileOf this req)) as [[|]|e0]; cbn.
  - destruct (file_getMetadata (storage this) (fileOf this req)) as [m|e0]; cbn.
    + destruct (notModified req m) eqn:Hnm; cbn.
      * split; [right; left; now split|].
        intros e. split; [discriminate|].
        intros (_ & m' & st & [= <-] & Hnm' & _). congruence.
      * destruct (file_createReadStream (storage this) (fileOf this req) false)
          as [st|e0] eqn:E; cbn.
        -- split; [do 3 right; split_and!; [reflexivity | reflexivity | now exists st]|].
           intros e. split.
           ++ intros Hf. split; [reflexivity|]. exists m, st. now split_and!.
           ++ intros (_ & m' & st' & _ & _ & [= <-] & Hf). exact Hf.
        -- split; [right; right; left; now split|].
           intros e. split; [discriminate|].
           intros (_ & m' & st' & _ & _ & Hst & _). discriminate Hst.
    + split; [right; right; left; now split|].
      intros e. split; [discriminate|].
      intros (_ & m' & st' & Hm & _). discriminate Hm.
  - split; [left; now split|].
    intros e. split; [discriminate | intros [Hx _]; discriminate Hx].
  - split; [right; right; left; now split|].
    intros e. split; [discriminate | intros [Hx _]; discriminate Hx].
Qed.

Lemma X4_handler_outcomes_witness :
  let w' := after (newGcsHandler interruptedStore (mkGcsConfig "bucket" "builds"))
              (Sample.get "/") freshWorld in
  uncaught w' = Some (mkError "ECONNRESET").
Proof.
  destruct (X4_handler_outcomes (newGcsHandler interruptedStore (mkGcsConfig "bucket" "builds"))
              (Sample.get "/") freshWorld) as (_ & _ & H).
  cbv zeta. apply H. split; [reflexivity|].
  exists Sample.metadata, (mkStream ["<html>"] (Some (mkError "ECONNRESET"))).
  split_and!; solve [reflexivity | vm_compute; reflexivity].
Defined.

(** X5. A request makes one, two or three calls on the storage client, all
    on the file of the request and in the order exists, getMetadata,
    createReadStream (with decompression off).  Unless the existence check
    answered true nothing else is asked, and the read stream is asked for
    only after metadata that does not answer the conditional request. *)
Theorem X5_storage_calls (this : GcsHandler) (req : Request) (w : World) :
  let f := fileOf this req in
  let made := calls (after this req w) in
  (made = calls w ++ [CallExists f] \/
   made = calls w ++ [CallExists f; CallGetMetadata f] \/
   made = calls w ++ [CallExists f; CallGetMetadata f; CallCreateReadStream f false]) /\
  (file_exists (storage this) f <> Normal true -> made = calls w ++ [CallExists f]) /\
  (made = calls w ++ [CallExists f; CallGetMetadata f; CallCreateReadStream f false] ->
   file_exists (storage this) f = Normal true /\
   exists metadata : Metadata,
     file_getMetadata (storage this) f = Normal metadata /\
     notModified req metadata = false).
Proof.
  intros f made. subst made f.
  destruct (file_exists (storage this) (fileOf this req)) as [[|]|e] eqn:Hex.
  - destruct (file_getMetadata (storage this) (fileOf this req)) as [m|e] eqn:Hmeta.
    + destruct (notModified req m) eqn:Hnm.
      * run_handler. rewrite Hex, Hmeta, Hnm. cbn.
        split_and!; [right; now left | congruence |].
        intros H. apply app_inv_head in H. discriminate H.
      * destruct (delivery_state this req w m Hex Hmeta Hnm) as [_ ->].
        split_and!; [right; now right | congruence |].
        intros _. split; [reflexivity|]. now exists m.
    + run_handler. rewrite Hex, Hmeta. cbn.
      split_and!; [right; now left | congruence |].
      intros H. apply app_inv_head in H. discriminate H.
  - run_handler. rewrite Hex. cbn. split_and!; [now left | reflexivity |].
    intros H. apply app_inv_head in H. discriminate H.
  - run_handler. rewrite Hex. cbn. split_and!; [now left | reflexivity |].
    intros H. apply app_inv_head in H. discriminate H.
Qed.

(** X6. The console gets exactly one line when a storage call throws: the
    label GCS Error: with the very error that the existence check, the
    metadata fetch or the creation of the read stream threw, next to the 500
    answer.  When none of the calls that are made throws, nothing is
    logged and the fixed error body is not sent. *)
Theorem X6_console (this : GcsHandler) (req : Request) (w : World) :
  let f := fileOf this req in
  let threw := fun e : Error =>
    file_exists (storage this) f = Throw e \/
    (file_exists (storage this) f = Normal true /\
     file_getMetadata (storage this) f = Throw e) \/
    (file_exists (storage this) f = Normal true /\
     exists metadata : Metadata,
       file_getMetadata (storage this) f = Normal metadata /\
       notModified req metadata = false /\
       file_createReadStream (storage this) f false = Throw e) in
  (forall e : Error,
     threw e ->
     console (after this req w) = console w ++ [("GCS Error:", e)] /\
     statusCode (res (after this req w)) = 500%Z /\
     payload (res (after this req w)) = Sent "Internal Server Error") /\
  ((forall e : Error, ~ threw e) ->
   console (after this req w) = console w /\
   payload (res (after this req w)) <> Sent "Internal Server Error").
Proof.
  intros f threw. subst threw f. run_handler. split.
  - intros e [-> | [[-> ->] | [-> (m & -> & -> & ->)]]]; cbn; now split_and!.
  - intros Hno.
    destruct (file_exists (storage this) (fileOf this req)) as [[|]|e]; cbn.
    + destruct (file_getMetadata (storage this) (fileOf this req)) as [m|e]; cbn.
      * destruct (notModified req m) eqn:Hnm; cbn; [split; [reflexivity | discriminate]|].
        destruct (file_createReadStream (storage this) (fileOf this req) false) as [st|e];
          cbn; [split; [reflexivity | discriminate]|].
        exfalso. apply (Hno e). right; right. split; [reflexivity|]. now exists m.
      * exfalso. apply (Hno e). right; left. now split.
    + split; [reflexivity | discriminate].
    + exfalso. apply (Hno e). now left.
Qed.

Lemma X6_console_witness :
  console (after Sample.brokenHandler (Sample.get "/") freshWorld)
    = [("GCS Error:", mkError "ECONNREFUSED")] /\
  console (after Sample.handler (Sample.get "/") freshWorld) = [].
Proof.
  split.
  - destruct (X6_console Sample.brokenHandler (Sample.get "/") freshWorld) as [H _].
    apply (H (mkError "ECONNREFUSED")). left. reflexivity.
  - destruct (X6_console Sample.handler (Sample.get "/") freshWorld) as [_ H].
    apply H. intros e [He | [[_ He] | (_ & m & _ & _ & He)]]; discriminate He.
Defined.

(** X7. When creating the read stream throws, the 500 answer goes out with
    the headers already set for the delivery: the object's ETag,
    Content-Type and Content-Encoding (where the metadata has them) and
    Cache-Control no-cache stay on the error response. *)
Theorem X7_failure_keeps_headers (this : GcsHandler) (req : Request) (w : World)
    (metadata : Metadata) (e : Error) :
  file_exists (storage this) (fileOf this req) = Normal true ->
  file_getMetadata (storage this) (fileOf this req) = Normal metadata ->
  notModified req metadata = false ->
  file_createReadStream (storage this) (fileOf this req) false = Throw e ->
  let r := res (after this req w) in
  statusCode r = 500%Z /\
  payload r = Sent "Internal Server Error" /\
  resHeaders r !! "Cache-Control" = Some "no-cache" /\
  resHeaders r !! "ETag" =
    (if Js.truthyOpt (etag metadata) then etag metadata
     else resHeaders (res w) !! "ETag") /\
  resHeaders r !! "Content-Type" =
    (if Js.truthyOpt (contentType metadata) then contentType metadata
     else resHeaders (res w) !! "Content-Type") /\
  resHeaders r !! "Content-Encoding" =
    (if Js.truthyOpt (contentEncoding metadata) then contentEncoding metadata
     else resHeaders (res w) !! "Content-Encoding").
Proof.
  intros Hex Hmeta Hnm Hs r. subst r. run_handler. rewrite Hex, Hmeta, Hnm, Hs.
  cbn. unfold deliveryHeaders. split_and!; try reflexivity.
  - apply lookup_insert_eq.
  - rewrite lookup_insert_ne by discriminate.
    rewrite !setIfTruthy_lookup_ne by discriminate. apply setIfTruthy_lookup.
  - rewrite lookup_insert_ne by discriminate.
    rewrite setIfTruthy_lookup_ne by discriminate.
    rewrite setIfTruthy_lookup. now rewrite setIfTruthy_lookup_ne by discriminate.
  - rewrite lookup_insert_ne by discriminate.
    rewrite setIfTruthy_lookup. now rewrite !setIfTruthy_lookup_ne by discriminate.
Qed.

Lemma X7_failure_keeps_headers_witness :
  let r := res (after (newGcsHandler unreadableStore (mkGcsConfig "bucket" "builds"))
                  (Sample.get "/Build/game.data") freshWorld) in
  statusCode r = 500%Z /\
  resHeaders r !! "Content-Encoding" = Some "gzip" /\
  resHeaders r !! "Content-Type" = Some "text/html".
Proof.
  destruct (X7_failure_keeps_headers
              (newGcsHandler unreadableStore (mkGcsConfig "bucket" "builds"))
              (Sample.get "/Build/game.data") freshWorld Sample.metadata (mkError "EPIPE"))
    as (H1 & _ & _ & _ & H2 & H3);
    [reflexivity | reflexivity | vm_compute; reflexivity | reflexivity |].
  cbv zeta. split_and!; [exact H1 | exact H3 | exact H2].
Defined.

(** X8. The file asked of the storage client is in the configured bucket;
    its name starts with the configured prefix and ends with the requested
    path after its first character, taken as it is (index.html for the
    path /): no part of the URL is decoded, cut or normalized. *)
Theorem X8_key_confinement (this : GcsHandler) (req : Request) :
  fileBucket (fileOf this req) = handlerBucket this /\
  Js.startsWith (fileName (fileOf this req)) (handlerPrefix this) = true /\
  Js.endsWith (fileName (fileOf this req))
    (if String.eqb (url req) "/" then "index.html" else Js.substring 1 (url req)) = true.
Proof.
  unfold fileOf. cbn [fileBucket fileName]. split_and!.
  - reflexivity.
  - unfold filePathOf. destruct (Js.truthy (handlerPrefix this)) eqn:Ht.
    + apply startsWith_app.
    + apply truthy_false in Ht. now rewrite Ht.
  - destruct (filePathOf_suffix (handlerPrefix this) (url req)) as [pp ->].
    apply endsWith_app.
Qed.

(** * The choice of mode *)

(** X10. From the build path to the object: for the build path gs://b/p, with
    a bucket name [b] and a prefix [p] free of line terminators, the server
    runs in remote mode without looking at the file system, and every
    request asks the client it was given for a file of bucket [b] whose name
    is the requested name after [p] and one slash ([p] alone when it is
    empty or ends in a slash); the build path gs://b gives the requested
    name itself. *)
Theorem X10_locator_to_file (existsSync : string -> bool) (client : Storage)
    (config : ServerConfig) (b p : string) (req : Request) :
  Js.truthy b = true -> Js.includes b "/" = false ->
  Closed.hasLineTerminator p = false ->
  buildPath config = "gs://" +:+ b +:+ "/" +:+ p \/
  (buildPath config = "gs://" +:+ b /\ p = "") ->
  let name := if String.eqb (url req) "/" then "index.html" else Js.substring 1 (url req) in
  exists h : GcsHandler,
    selectMode existsSync client config = Returned (RemoteMode h) /\
    storage h = client /\
    fileOf h req =
      mkFile b (if Js.truthy p
                then p +:+ (if Js.endsWith p "/" then "" else "/") +:+ name
                else name).
Proof.
  intros Hb Hs Hp Hbp name. apply truthy_true in Hb.
  assert (isGcsPath (buildPath config) = true /\
          parseGcsPath (buildPath config) = Some (mkGcsConfig b p)) as [Hgcs Hparse].
  { rewrite parseGcsPath_closed. destruct Hbp as [-> | [-> ->]].
    - split; [apply startsWith_app|].
      rewrite gsParse_bucket_slash by assumption. now rewrite dotStar_id.
    - split; [apply startsWith_app | now apply gsParse_bucket]. }
  exists (newGcsHandler client (mkGcsConfig b p)).
  unfold selectMode. rewrite Hgcs, Hparse. cbn. split_and!; reflexivity.
Qed.

Lemma X10_locator_to_file_witness :
  exists h : GcsHandler,
    selectMode (fun _ => false) Sample.store (mkServerConfig (Finite 3000) "0.0.0.0" "gs://my-bucket/builds")
      = Returned (RemoteMode h) /\
    storage h = Sample.store /\
    fileOf h (Sample.get "/Build/game.wasm.gz") = mkFile "my-bucket" "builds/Build/game.wasm.gz".
Proof.
  apply (X10_locator_to_file (fun _ => false) Sample.store
           (mkServerConfig (Finite 3000) "0.0.0.0" "gs://my-bucket/builds")
           "my-bucket" "builds" (Sample.get "/Build/game.wasm.gz"));
    [reflexivity | reflexivity | reflexivity | left; reflexivity].
Defined.

(** X11. How the server starts from a configuration.  A build path that
    starts with gs:// never leads to local mode and never consults the file
    system: the server runs in remote mode on the parsed locator, or exits
    with code 1 when nothing or a slash follows gs://.  Any other build path
    leads to local mode when the directory exists and to exit code 1 when it
    does not.  No other exit code occurs. *)
Theorem X11_mode_choice (existsSync : string -> bool) (client : Storage)
    (config : ServerConfig) :
  let bp := buildPath config in
  let chosen := selectMode existsSync client config in
  (chosen = Returned LocalMode <-> Js.startsWith bp "gs://" = false /\ existsSync bp = true) /\
  (forall h : GcsHandler,
     chosen = Returned (RemoteMode h) <->
     Js.startsWith bp "gs://" = true /\
     exists gcsConfig : GcsConfig,
       parseGcsPath bp = Some gcsConfig /\ h = newGcsHandler client gcsConfig) /\
  (chosen = Exited 1 <->
   (Js.startsWith bp "gs://" = true /\ (bp = "gs://" \/ Js.startsWith bp "gs:///" = true)) \/
   (Js.startsWith bp "gs://" = false /\ existsSync bp = false)) /\
  (forall code : Z, chosen = Exited code -> code = 1%Z).
Proof.
  intros bp chosen. subst chosen. unfold selectMode, isGcsPath. fold bp.
  pose proof (gsParse_none bp) as Hnone. rewrite <- parseGcsPath_closed in Hnone.
  destruct (Js.startsWith bp "gs://") eqn:Hgcs; cbn [negb andb].
  - destruct (parseGcsPath bp) as [c|] eqn:Hparse; cbv iota.
    + split_and!.
      * split; [discriminate | intros [? _]; discriminate].
      * intros h. split.
        -- intros [= <-]. split; [reflexivity|]. now exists c.
        -- intros (_ & c' & [= <-] & ->). reflexivity.
      * split; [discriminate|].
        intros [[_ H] | [H _]]; [|discriminate].
        destruct Hnone as [_ Hn]. discriminate Hn. now right.
      * discriminate.
    + split_and!.
      * split; [discriminate | intros [? _]; discriminate].
      * intros h. split; [discriminate | intros (_ & c' & ? & _); discriminate].
      * split; [intros _ | reflexivity]. left. split; [reflexivity|].
        destruct Hnone as [Hn _]. destruct (Hn eq_refl) as [|]; [discriminate | assumption].
      * now intros code [= <-].
  - destruct (existsSync bp) eqn:Hex; cbn [negb andb]; cbv iota.
    + split_and!.
      * split; [now split | reflexivity].
      * intros h. split; [discriminate | intros [? _]; discriminate].
      * split; [discriminate | intros [[? _] | [_ ?]]; discriminate].
      * discriminate.
    + split_and!.
      * split; [discriminate | intros [_ ?]; discriminate].
      * intros h. split; [discriminate | intros [? _]; discriminate].
      * split; [intros _; right; now split | reflexivity].
      * now intros code [= <-].
Qed.

(** * The command line *)

Section CommandLineFacts.

Context (parseInt : string -> JsNumber).

Lemma numberOr_truthy (a b : JsNumber) :
  truthyNumber b = true -> truthyNumber (numberOr a b) = true.
Proof. intros H. unfold numberOr. now destruct (truthyNumber a) eqn:E. Qed.

Lemma hostArg_truthy (a : option string) : Js.truthy (hostArg a) = true.
Proof.
  destruct a as [s|]; [|reflexivity].
  unfold hostArg, Js.or. now destruct (Js.truthy s) eqn:E.
Qed.

(** What every configuration out of the loop satisfies. *)
Lemma argLoop_invariant (fuel : nat) : forall (args : list string) (i : nat)
    (config result : ServerConfig),
  truthyNumber (port config) = true -> Js.truthy (host config) = true ->
  Js.startsWith (buildPath config) "-" = false ->
  argLoop parseInt fuel args i config = Returned result ->
  truthyNumber (port result) = true /\ Js.truthy (host result) = true /\
  Js.startsWith (buildPath result) "-" = false.
Proof.
  induction fuel as [|fuel IH]; intros args i config result Hp Hh Hb H; simpl in H.
  - now inversion H; subst.
  - destruct (args !! i) as [arg|]; [|now inversion H; subst].
    unfold argStep in H.
    destruct (String.eqb arg "-p" || String.eqb arg "--port").
    { apply IH in H; [exact H | | exact Hh | exact Hb].
      cbn [port withPort]. now apply numberOr_truthy. }
    destruct (String.eqb arg "-a").
    { apply IH in H; [exact H | exact Hp | | exact Hb].
      cbn [host withHost]. apply hostArg_truthy. }
    destruct (String.eqb arg "--help"); [discriminate|].
    destruct (Js.startsWith arg "-") eqn:Harg; cbn [negb] in H.
    + now apply IH in H.
    + now apply IH in H.
Qed.

Lemma argLoop_exit (fuel : nat) : forall (args : list string) (i : nat)
    (config : ServerConfig) (code : Z),
  argLoop parseInt fuel args i config = Exited code ->
  code = 0%Z /\ In "--help" args.
Proof.
  induction fuel as [|fuel IH]; intros args i config code H; simpl in H; [discriminate|].
  destruct (args !! i) as [arg|] eqn:Hi; [|discriminate].
  unfold argStep in H.
  destruct (String.eqb arg "-p" || String.eqb arg "--port"); [now apply IH in H|].
  destruct (String.eqb arg "-a"); [now apply IH in H|].
  destruct (String.eqb_spec arg "--help") as [->|].
  - inversion H. split; [reflexivity|].
    apply list_elem_of_In. now apply list_elem_of_lookup_2 in Hi.
  - destruct (negb (Js.startsWith arg "-")); now apply IH in H.
Qed.

Lemma positional_step (args : list string) (i : nat) (arg : string) (config : ServerConfig) :
  positional arg = true ->
  argStep parseInt args i arg config = Returned (i, withBuildPath arg config).
Proof.
  unfold positional, argStep. intros H. rewrite H.
  apply negb_true_iff in H.
  destruct (String.eqb_spec arg "-p") as [->|]; [discriminate|].
  destruct (String.eqb_spec arg "--port") as [->|]; [discriminate|].
  destruct (String.eqb_spec arg "-a") as [->|]; [discriminate|].
  destruct (String.eqb_spec arg "--help") as [->|]; [discriminate|].
  reflexivity.
Qed.

(** A run of build-path arguments: the loop passes over it, each one
    replacing the build path. *)
Lemma argLoop_positional (pre : list string) : forall (fuel : nat)
    (done rest : list string) (config : ServerConfig),
  length pre <= fuel -> Forall (fun a => positional a = true) pre ->
  argLoop parseInt fuel (done ++ pre ++ rest) (length done) config =
  argLoop parseInt (fuel - length pre) (done ++ pre ++ rest) (length done + length pre)
    (fold_left (fun c a => withBuildPath a c) pre config).
Proof.
  induction pre as [|a pre IH]; intros fuel done rest config Hfuel Hpos.
  - simpl. now rewrite Nat.sub_0_r, Nat.add_0_r.
  - inversion Hpos as [|? ? Ha Hpre]; subst.
    destruct fuel as [|fuel]; [simpl in Hfuel; lia|].
    cbn [argLoop].
    assert ((done ++ (a :: pre) ++ rest) !! length done = Some a) as ->.
    { rewrite lookup_app_r by lia. now rewrite Nat.sub_diag. }
    rewrite (positional_step _ _ _ _ Ha).
    replace (done ++ (a :: pre) ++ rest) with ((done ++ [a]) ++ pre ++ rest)
      by (now rewrite <- app_assoc).
    replace (S (length done)) with (length (done ++ [a]))
      by (rewrite length_app; simpl; lia).
    rewrite IH; [| simpl in Hfuel; lia | exact Hpre].
    cbn [length fold_left]. rewrite length_app. cbn [length].
    f_equal; lia.
Qed.

Lemma fold_buildPath (pre : list string) : forall config : ServerConfig,
  fold_left (fun c a => withBuildPath a c) pre config =
  match last pre with
  | Some p => withBuildPath p config
  | None => config
  end.
Proof.
  induction pre as [|a pre IH]; intros config; [reflexivity|].
  cbn [fold_left]. rewrite IH. destruct pre as [|b pre]; [reflexivity|].
  rewrite last_cons_cons. destruct (last (b :: pre)) eqn:E; [reflexivity|].
  apply last_None in E. discriminate E.
Qed.

End CommandLineFacts.

Lemma forallb_positional (l : list string) :
  forallb positional l = true -> Forall (fun a => positional a = true) l.
Proof.
  intros H. apply Forall_forall. intros a Ha.
  apply list_elem_of_In in Ha. revert a Ha. now apply forallb_forall.
Qed.

(** X12. Whatever the arguments and whatever [parseInt] makes of them, a
    configuration that [parseArgs] returns has a port that is neither NaN nor
    zero, a non-empty host, and a build path that does not start with a
    dash. *)
Theorem X12_config_invariants (parseInt : string -> JsNumber) (argv : list string)
    (config : ServerConfig) :
  parseArgs parseInt argv = Returned config ->
  port config <> NaN /\ port config <> Finite 0 /\
  host config <> "" /\
  Js.startsWith (buildPath config) "-" = false.
Proof.
  unfold parseArgs. intros H.
  apply argLoop_invariant in H as (Hp & Hh & Hb); try reflexivity.
  split_and!.
  - intros E. rewrite E in Hp. discriminate Hp.
  - intros E. rewrite E in Hp. discriminate Hp.
  - now apply truthy_true.
  - exact Hb.
Qed.

Lemma X12_config_invariants_witness :
  Finite 8080 <> NaN /\ Finite 8080 <> Finite 0 /\ "localhost" <> "" /\
  Js.startsWith "./Build" "-" = false.
Proof.
  apply (X12_config_invariants sampleParseInt
           ["node"; "server.js"; "-p"; "0"; "-a"; ""; "-x"; "./Build"]
           (mkServerConfig (Finite 8080) "localhost" "./Build")).
  vm_compute. reflexivity.
Defined.

(** X13. [parseArgs] ends the process only through [--help], and then with
    code 0: when it exits, the code is 0 and [--help] is among the
    arguments after the first two; without [--help] there it always returns
    a configuration. *)
Theorem X13_exit_only_for_help (parseInt : string -> JsNumber) (argv : list string) :
  (forall code : Z,
     parseArgs parseInt argv = Exited code -> code = 0%Z /\ In "--help" (drop 2 argv)) /\
  (~ In "--help" (drop 2 argv) ->
   exists config : ServerConfig, parseArgs parseInt argv = Returned config).
Proof.
  split.
  - intros code H. unfold parseArgs in H. now apply argLoop_exit in H.
  - intros Hno. destruct (parseArgs parseInt argv) as [config|code] eqn:E.
    + now exists config.
    + unfold parseArgs in E. apply argLoop_exit in E as [_ Hin]. contradiction.
Qed.

(** X14. With nothing but build-path arguments (none starts with a dash),
    the last one is the build path, and port and host are the defaults; with
    no argument at all the configuration is the default one. *)
Theorem X14_last_build_path (parseInt : string -> JsNumber) (node script : string)
    (args : list string) :
  forallb positional args = true ->
  parseArgs parseInt (node :: script :: args) =
  Returned (mkServerConfig (Finite 8080) "localhost" (default "./" (last args))).
Proof.
  intros Hpos. apply forallb_positional in Hpos.
  unfold parseArgs. cbv zeta. cbn [drop]. rewrite !drop_0.
  pose proof (argLoop_positional parseInt args (length args) [] [] DEFAULT_CONFIG
                (le_n _) Hpos) as H.
  cbn [app length] in H. rewrite app_nil_r in H. rewrite H.
  rewrite Nat.sub_diag. cbn [argLoop]. rewrite fold_buildPath.
  now destruct (last args).
Qed.

Lemma X14_last_build_path_witness :
  parseArgs sampleParseInt ["node"; "server.js"; "./old"; "./new"] =
  Returned (mkServerConfig (Finite 8080) "localhost" "./new").
Proof.
  apply (X14_last_build_path sampleParseInt "node" "server.js" ["./old"; "./new"]).
  reflexivity.
Defined.

(** X15. [--help] after any number of build-path arguments ends the process
    with code 0, whatever follows it. *)
Theorem X15_help_exits (parseInt : string -> JsNumber) (node script : string)
    (pre rest : list string) :
  forallb positional pre = true ->
  parseArgs parseInt (node :: script :: pre ++ "--help" :: rest) = Exited 0.
Proof.
  intros Hpos. apply forallb_positional in Hpos.
  unfold parseArgs. cbv zeta. cbn [drop]. rewrite !drop_0.
  assert (length pre <= length (pre ++ "--help" :: rest)) as Hlen
    by (rewrite length_app; lia).
  pose proof (argLoop_positional parseInt pre (length (pre ++ "--help" :: rest)) []
                ("--help" :: rest) DEFAULT_CONFIG Hlen Hpos) as H.
  cbn [app length] in H. rewrite H.
  rewrite length_app. cbn [length].
  replace (length pre + S (length rest) - length pre) with (S (length rest)) by lia.
  cbn [argLoop].
  rewrite lookup_app_r by lia. rewrite Nat.sub_diag. reflexivity.
Qed.

Lemma X15_help_exits_witness :
  parseArgs sampleParseInt ["node"; "server.js"; "./Build"; "--help"; "-p"; "3000"] = Exited 0.
Proof.
  apply (X15_help_exits sampleParseInt "node" "server.js" ["./Build"] ["-p"; "3000"]).
  reflexivity.
Defined.

(** X16. The two documented ways to write a command line agree: a build
    path followed by [-p v -a h], and [-p v -a h] followed by the build
    path, give the same configuration, with the port [parseInt v] (8080 when
    that is NaN or 0), the host [h] (localhost when it is empty) and the
    build path.  The words after [-p] and [-a] are taken as values as they
    are, also when they look like options. *)
Theorem X16_option_order (parseInt : string -> JsNumber) (node script : string)
    (path v h : string) :
  positional path = true ->
  let expected :=
    mkServerConfig (numberOr (parseInt v) (Finite 8080)) (Js.or h "localhost") path in
  parseArgs parseInt [node; script; path; "-p"; v; "-a"; h] = Returned expected /\
  parseArgs parseInt [node; script; "-p"; v; "-a"; h; path] = Returned expected /\
  parseArgs parseInt [node; script; path; "--port"; v; "-a"; h] = Returned expected.
Proof.
  intros Hpos expected. subst expected. unfold parseArgs. cbv zeta. cbn [drop length].
  assert (forall args i config,
            argStep parseInt args i "-p" config =
            Returned (S i, withPort (numberOr (parseIntArg parseInt (args !! S i))
                                       (port DEFAULT_CONFIG)) config)) as Hp
    by reflexivity.
  assert (forall args i config,
            argStep parseInt args i "--port" config =
            Returned (S i, withPort (numberOr (parseIntArg parseInt (args !! S i))
                                       (port DEFAULT_CONFIG)) config)) as Hport
    by reflexivity.
  assert (forall args i config,
            argStep parseInt args i "-a" config =
            Returned (S i, withHost (hostArg (args !! S i)) config)) as Ha
    by reflexivity.
  split_and!; cbn [argLoop lookup list_lookup];
    repeat (first [ rewrite (positional_step _ _ _ _ _ Hpos)
                  | rewrite Hp | rewrite Hport | rewrite Ha ];
            cbn [lookup list_lookup]);
    reflexivity.
Qed.

Lemma X16_option_order_witness :
  parseArgs sampleParseInt ["node"; "server.js"; "./Build"; "-p"; "3000"; "-a"; "0.0.0.0"]
    = Returned (mkServerConfig (Finite 3000) "0.0.0.0" "./Build") /\
  parseArgs sampleParseInt ["node"; "server.js"; "-p"; "3000"; "-a"; "0.0.0.0"; "./Build"]
    = Returned (mkServerConfig (Finite 3000) "0.0.0.0" "./Build").
Proof.
  destruct (X16_option_order sampleParseInt "node" "server.js" "./Build" "3000" "0.0.0.0")
    as (H1 & H2 & _); [reflexivity|].
  split; [exact H1 | exact H2].
Defined.

(** * More on the header table *)

Section HeaderTableFacts.

Lemma lowerChar_dot (c : ascii) : Ascii.eqb (Js.lowerChar c) "." = Ascii.eqb c ".".
Proof. destruct c as [[] [] [] [] [] [] [] []]; reflexivity. Qed.

Lemma lowerChar_slash (c : ascii) : Ascii.eqb (Js.lowerChar c) "/" = Ascii.eqb c "/".
Proof. destruct c as [[] [] [] [] [] [] [] []]; reflexivity. Qed.

Lemma plainName_lower (e : string) :
  plainName (list_ascii_of_string (Js.toLowerCase e)) = plainName (list_ascii_of_string e).
Proof.
  induction e as [|c e IH]; [reflexivity|].
  cbn [Js.toLowerCase list_ascii_of_string plainName].
  now rewrite lowerChar_dot, lowerChar_slash, IH.
Qed.

(** An extension that lower-cases to a plain, non-empty word is found by
    [extname] as it is written. *)
Lemma extname_any_case (pre : string) (c : ascii) (e lower : string) :
  Ascii.eqb c "/" = false -> Js.toLowerCase e = lower ->
  Js.truthy lower = true -> plainName (list_ascii_of_string lower) = true ->
  Js.toLowerCase (Path.extname (pre +:+ String c (String "." e))) = String "." lower.
Proof.
  intros Hc <- Ht Hp. rewrite plainName_lower in Hp.
  rewrite extname_suffix; [reflexivity | exact Hc | | exact Hp].
  destruct e; [discriminate Ht | reflexivity].
Qed.

End HeaderTableFacts.

(** X17. The header middleware changes nothing but the two headers
    Content-Type and Content-Encoding: status, payload and every other
    header pass through, in either mode.  Content-Encoding, when it
    changes, becomes gzip or br, and then Content-Type is set as well. *)
Theorem X17_middleware_frame (isGcs : bool) (req : Request) (res : Response) :
  let out := headerMiddleware isGcs req res in
  statusCode out = statusCode res /\
  payload out = payload res /\
  (forall name : string,
     name <> "Content-Type" -> name <> "Content-Encoding" ->
     resHeaders out !! name = resHeaders res !! name) /\
  (resHeaders out !! "Content-Encoding" = resHeaders res !! "Content-Encoding" \/
   ((resHeaders out !! "Content-Encoding" = Some "gzip" \/
     resHeaders out !! "Content-Encoding" = Some "br") /\
    resHeaders out !! "Content-Type" =
      Some (getContentTypeForCompressedFile (url req)))).
Proof.
  cbv zeta. unfold headerMiddleware.
  destruct isGcs; [split_and!; [reflexivity | reflexivity | reflexivity | now left]|].
  repeat match goal with
         | |- context [String.eqb ?a ?b] => destruct (String.eqb a b)
         end;
    unfold setHeader; cbn [statusCode payload resHeaders];
    (split_and!;
     [ reflexivity | reflexivity
     | intros name H1 H2; now rewrite ?lookup_insert_ne by congruence
     | ]).
  all: try (left; now rewrite ?lookup_insert_ne by discriminate).
  all: right; split; [| apply lookup_insert_eq].
  - left. rewrite lookup_insert_ne by discriminate. apply lookup_insert_eq.
  - right. rewrite lookup_insert_ne by discriminate. apply lookup_insert_eq.
Qed.

(** X18. The extension is matched without regard to case: a URL whose
    extension, after a character other than a slash, lower-cases to wasm,
    js, data, unityweb, gz or br gets the headers of that extension.  For gz
    and br the Content-Type is still chosen by the URL as it is written. *)
Theorem X18_extension_case (m : string) (hs : gmap string string)
    (pre : string) (c : ascii) (e : string) (res : Response) :
  Ascii.eqb c "/" = false ->
  let target := pre +:+ String c (String "." e) in
  let out := headerMiddleware false (mkRequest m target hs) res in
  (Js.toLowerCase e = "wasm" -> out = setHeader "Content-Type" "application/wasm" res) /\
  (Js.toLowerCase e = "js" -> out = setHeader "Content-Type" "application/javascript" res) /\
  (Js.toLowerCase e = "data" -> out = setHeader "Content-Type" "application/octet-stream" res) /\
  (Js.toLowerCase e = "unityweb" ->
   out = setHeader "Content-Type" "application/octet-stream" res) /\
  (Js.toLowerCase e = "gz" ->
   out = setHeader "Content-Type" (getContentTypeForCompressedFile target)
           (setHeader "Content-Encoding" "gzip" res)) /\
  (Js.toLowerCase e = "br" ->
   out = setHeader "Content-Type" (getContentTypeForCompressedFile target)
           (setHeader "Content-Encoding" "br" res)).
Proof.
  intros Hc target out. subst out target. unfold headerMiddleware. cbn [url].
  split_and!; intros He;
    rewrite (extname_any_case pre c e _ Hc He) by reflexivity; reflexivity.
Qed.

Lemma X18_extension_case_witness :
  headerMiddleware false (Sample.get "/Build/GAME.WASM") freshResponse
    = setHeader "Content-Type" "application/wasm" freshResponse /\
  headerMiddleware false (Sample.get "/Build/GAME.WASM.GZ") freshResponse
    = setHeader "Content-Type" "application/octet-stream"
        (setHeader "Content-Encoding" "gzip" freshResponse).
Proof.
  split.
  - destruct (X18_extension_case "GET" ∅ "/Build/GAM" "E" "WASM" freshResponse) as (H & _);
      [reflexivity|]. apply H. reflexivity.
  - destruct (X18_extension_case "GET" ∅ "/Build/GAME.WAS" "M" "GZ" freshResponse)
      as (_ & _ & _ & _ & H & _); [reflexivity|]. apply H. reflexivity.
Defined.

(** X19. A query string hides the extension: when one of the six
    extensions is followed by a question mark and a query without dot and
    slash, [extname] takes the query into the extension, no entry of the
    table matches, and the response passes through without any header set. *)
Theorem X19_query_string (m : string) (hs : gmap string string)
    (pre : string) (c : ascii) (q : string) (res : Response) :
  Ascii.eqb c "/" = false ->
  plainName (list_ascii_of_string q) = true ->
  let serve := fun ext : string =>
    headerMiddleware false (mkRequest m (pre +:+ String c (ext +:+ "?" +:+ q)) hs) res in
  serve ".wasm" = res /\ serve ".js" = res /\ serve ".data" = res /\
  serve ".unityweb" = res /\ serve ".gz" = res /\ serve ".br" = res.
Proof.
  intros Hc Hq serve. subst serve. unfold headerMiddleware. cbn [url].
  split_and!; cbn [String.append].
  all: rewrite extname_suffix;
    [ reflexivity | exact Hc | reflexivity | cbn; exact Hq ].
Qed.

Lemma X19_query_string_witness :
  headerMiddleware false (Sample.get "/Build/game.wasm?v=2") freshResponse = freshResponse.
Proof.
  destruct (X19_query_string "GET" ∅ "/Build/gam" "e" "v=2" freshResponse) as (H & _);
    [reflexivity | reflexivity |]. exact H.
Defined.

(** Rewrite with an occurrence lemma whose two appended parts are literals. *)
Ltac use_includes lemma :=
  let H := fresh "Hinc" in
  pose proof lemma as H;
  first [ rewrite H | cbn [String.append] in H; rewrite H ]; clear H; reflexivity.

(** X20. The names of a compressed Unity build: every URL that ends in
    .wasm.gz or .wasm.br is served as application/wasm with Content-Encoding
    gzip or br.  One that ends in .js.gz or .js.br is served as
    application/javascript unless [.wasm.] occurs earlier in the URL, and one
    that ends in .data.gz or .data.br as application/octet-stream unless
    [.wasm.] or [.js.] occurs in it.  The marker is looked for in the whole
    URL: a URL with [.wasm.] anywhere, for instance in a directory name, is
    served as application/wasm even when it ends in .js.gz. *)
Theorem X20_compressed_names (m : string) (hs : gmap string string)
    (pre mid : string) (res : Response) :
  let serve := fun target : string => headerMiddleware false (mkRequest m target hs) res in
  let typed := fun contentType encoding : string =>
    setHeader "Content-Type" contentType (setHeader "Content-Encoding" encoding res) in
  serve (pre +:+ ".wasm.gz") = typed "application/wasm" "gzip" /\
  serve (pre +:+ ".wasm.br") = typed "application/wasm" "br" /\
  (Js.includes (pre +:+ ".js.gz") ".wasm." = false ->
   serve (pre +:+ ".js.gz") = typed "application/javascript" "gzip") /\
  (Js.includes (pre +:+ ".js.br") ".wasm." = false ->
   serve (pre +:+ ".js.br") = typed "application/javascript" "br") /\
  (Js.includes (pre +:+ ".data.gz") ".wasm." = false ->
   Js.includes (pre +:+ ".data.gz") ".js." = false ->
   serve (pre +:+ ".data.gz") = typed "application/octet-stream" "gzip") /\
  (Js.includes (pre +:+ ".data.br") ".wasm." = false ->
   Js.includes (pre +:+ ".data.br") ".js." = false ->
   serve (pre +:+ ".data.br") = typed "application/octet-stream" "br") /\
  serve (pre +:+ ".wasm." +:+ mid +:+ ".js.gz") = typed "application/wasm" "gzip".
Proof.
  intros serve typed. subst serve typed.
  assert (forall (stem : string) (c : ascii) (enc whole : string),
            whole = stem +:+ String c (String "." enc) ->
            Ascii.eqb c "/" = false -> Js.truthy enc = true ->
            plainName (list_ascii_of_string enc) = true ->
            Js.toLowerCase enc = enc ->
            Js.toLowerCase (Path.extname whole) = String "." enc) as Hext.
  { intros stem c enc whole -> Hc Ht Hp Hl.
    rewrite extname_suffix by assumption. cbn [Js.toLowerCase]. now rewrite Hl. }
  unfold headerMiddleware, getContentTypeForCompressedFile. cbn [url].
  split_and!.
  - rewrite (Hext (pre +:+ ".was") "m"%char "gz") by (now rewrite ?sapp_assoc).
    cbn [String.eqb Ascii.eqb Bool.eqb].
    use_includes (includes_app pre ".wasm." "gz").
  - rewrite (Hext (pre +:+ ".was") "m"%char "br") by (now rewrite ?sapp_assoc).
    cbn [String.eqb Ascii.eqb Bool.eqb].
    use_includes (includes_app pre ".wasm." "br").
  - intros Hw. rewrite (Hext (pre +:+ ".j") "s"%char "gz") by (now rewrite ?sapp_assoc).
    cbn [String.eqb Ascii.eqb Bool.eqb]. rewrite Hw.
    use_includes (includes_app pre ".js." "gz").
  - intros Hw. rewrite (Hext (pre +:+ ".j") "s"%char "br") by (now rewrite ?sapp_assoc).
    cbn [String.eqb Ascii.eqb Bool.eqb]. rewrite Hw.
    use_includes (includes_app pre ".js." "br").
  - intros Hw Hj. rewrite (Hext (pre +:+ ".dat") "a"%char "gz") by (now rewrite ?sapp_assoc).
    cbn [String.eqb Ascii.eqb Bool.eqb]. rewrite Hw, Hj.
    now destruct (Js.includes _ ".data.").
  - intros Hw Hj. rewrite (Hext (pre +:+ ".dat") "a"%char "br") by (now rewrite ?sapp_assoc).
    cbn [String.eqb Ascii.eqb Bool.eqb]. rewrite Hw, Hj.
    now destruct (Js.includes _ ".data.").
  - rewrite (Hext (pre +:+ ".wasm." +:+ mid +:+ ".j") "s"%char "gz")
      by (now rewrite ?sapp_assoc).
    cbn [String.eqb Ascii.eqb Bool.eqb].
    use_includes (includes_app pre ".wasm." (mid +:+ ".js.gz")).
Qed.

Lemma X20_compressed_names_witness :
  headerMiddleware false (Sample.get "/Build/game.framework.js.br") freshResponse
    = setHeader "Content-Type" "application/javascript"
        (setHeader "Content-Encoding" "br" freshResponse) /\
  headerMiddleware false (Sample.get "/v1.wasm.d/game.framework.js.gz") freshResponse
    = setHeader "Content-Type" "application/wasm"
        (setHeader "Content-Encoding" "gzip" freshResponse).
Proof.
  split.
  - destruct (X20_compressed_names "GET" ∅ "/Build/game.framework" "" freshResponse)
      as (_ & _ & _ & H & _). apply H. reflexivity.
  - destruct (X20_compressed_names "GET" ∅ "/v1" "d/game.framework" freshResponse)
      as (_ & _ & _ & _ & _ & _ & H). exact H.
Defined.

(** * Revalidation *)

(** X22. Revalidation round trip: when a delivery has put an ETag on a
    response that had none, a later request for the same URL that sends this
    value back in If-None-Match is answered 304 without body, as long as the
    storage client answers the same. *)
Theorem X22_revalidation (this : GcsHandler) (req1 req2 : Request) (w1 w2 : World)
    (metadata : Metadata) (v : string) :
  file_exists (storage this) (fileOf this req1) = Normal true ->
  file_getMetadata (storage this) (fileOf this req1) = Normal metadata ->
  notModified req1 metadata = false ->
  resHeaders (res w1) !! "ETag" = None ->
  resHeaders (res (after this req1 w1)) !! "ETag" = Some v ->
  url req2 = url req1 ->
  headers req2 !! "if-none-match" = Some v ->
  res (after this req2 w2) = mkResponse 304 (resHeaders (res w2)) Ended /\
  calls (after this req2 w2) =
    calls w2 ++ [CallExists (fileOf this req1); CallGetMetadata (fileOf this req1)].
Proof.
  intros Hex Hmeta Hnm Hnone Hetag Hurl Hv.
  assert (fileOf this req2 = fileOf this req1) as Hfile by (unfold fileOf; now rewrite Hurl).
  assert (etag metadata = Some v /\ Js.truthy v = true) as [He Ht].
  { revert Hetag. destruct (delivery_state this req1 w1 metadata Hex Hmeta Hnm) as [-> _].
    unfold deliveryHeaders. rewrite lookup_insert_ne by discriminate.
    rewrite !setIfTruthy_lookup_ne by discriminate. rewrite setIfTruthy_lookup, Hnone.
    destruct (etag metadata) as [x|]; cbn [Js.truthyOpt]; [|discriminate].
    destruct (Js.truthy x) eqn:E; [|discriminate]. intros [= ->]. now split. }
  assert (notModified req2 metadata = true) as Hnm2.
  { apply notModified_spec. exists v. split_and!; [exact Hv | now apply truthy_true | exact He]. }
  run_handler. rewrite Hfile, Hex, Hmeta, Hnm2. split; reflexivity.
Qed.

Lemma X22_revalidation_witness :
  res (after Sample.handler (Sample.getIfNoneMatch "/" "abc") freshWorld)
    = mkResponse 304 ∅ Ended /\
  calls (after Sample.handler (Sample.getIfNoneMatch "/" "abc") freshWorld)
    = [CallExists Sample.indexFile; CallGetMetadata Sample.indexFile].
Proof.
  apply (X22_revalidation Sample.handler (Sample.get "/") (Sample.getIfNoneMatch "/" "abc")
           freshWorld freshWorld Sample.metadata "abc");
    solve [reflexivity | vm_compute; reflexivity].
Defined.
